(** * BloodHound.py: security-descriptor decoding and ACL rights evaluation

    A shallow embedding of [bloodhound/enumeration/acls.py]:
    the [SecurityDescriptor] / [ACL] / [ACE] decoders, the access-mask
    and flag tests, and [parse_binary_acl], the rule engine that turns a
    decoded descriptor into relationship edges.

    Integers read from the wire are [Z]; byte strings are [list byte];
    Python [str] values are [string].  Exceptions are carried by the
    [result] type; a file handle ([BytesIO]) is a buffer together with a
    cursor, threaded through the [reader] monad. *)

From Stdlib Require Import String Ascii Strings.Byte DecimalString.
From Stdlib Require Import ZArith List Bool Lia Permutation.
Import ListNotations.
Open Scope string_scope.
Open Scope list_scope.
Open Scope Z_scope.

(** ** Exceptions and results *)

Inductive exn : Type :=
| MalformedDescriptor   (* a read that does not fit in the buffer *)
| AttributeError.       (* attribute access on [None] or on [bytes] *)

Inductive result (A : Type) : Type :=
| Ok (a : A)
| Raise (e : exn).
Arguments Ok {A} a.
Arguments Raise {A} e.

Definition bytes := list byte.

Definition Z_of_byte (b : byte) : Z := Z.of_N (Byte.to_N b).

Definition byte_of_Z (z : Z) : byte :=
  match Byte.of_N (Z.to_N z) with
  | Some b => b
  | None => x00
  end.

(** Little- and big-endian unsigned integers, as [struct.unpack] reads them. *)
Fixpoint le_uint (bs : bytes) : Z :=
  match bs with
  | [] => 0
  | b :: rest => Z_of_byte b + 256 * le_uint rest
  end.

Definition be_uint (bs : bytes) : Z := le_uint (rev bs).

(** ** The binary reader *)

Module Reader.

(** A [BytesIO]: the buffer never changes, the cursor does. *)
Definition reader (A : Type) : Type := bytes -> nat -> result (A * nat).

Definition ret {A} (a : A) : reader A := fun _ p => Ok (a, p).

Definition bind {A B} (m : reader A) (k : A -> reader B) : reader B :=
  fun buf p =>
    match m buf p with
    | Ok (a, p') => k a buf p'
    | Raise e => Raise e
    end.

(** [fh.seek(offset)]: absolute, and allowed to land anywhere. *)
Definition seek (offset : Z) : reader unit :=
  fun _ _ => Ok (tt, Z.to_nat offset).

(** Modelled from the spec: the record reader of [bloodhound.lib.cstruct]
    is not among the sources.  A read of [n] bytes hands back exactly the
    [n] bytes under the cursor and advances past them; a count that is
    negative, or that does not fit in what is left of the buffer, fails
    with [MalformedDescriptor] instead of reading out of bounds. *)
Definition read (n : Z) : reader bytes :=
  fun buf p =>
    if n <? 0 then Raise MalformedDescriptor
    else if (p + Z.to_nat n <=? length buf)%nat
         then Ok (firstn (Z.to_nat n) (skipn p buf), (p + Z.to_nat n)%nat)
         else Raise MalformedDescriptor.

(** [BytesIO(data)] handed to a decoder: a fresh stream at position 0. *)
Definition run {A} (m : reader A) (data : bytes) : result A :=
  match m data 0%nat with
  | Ok (a, _) => Ok a
  | Raise e => Raise e
  end.

End Reader.
Import Reader.

Declare Scope reader_scope.
Delimit Scope reader_scope with reader.
Notation "x <- m ;; k" := (bind m (fun x => k))
  (at level 61, m at next level, right associativity) : reader_scope.

(** Modelled from the spec: fixed-width little-endian fields of a
    [cstruct] record ([uint8], [uint16], [uint32]). *)
Definition uint8 : reader Z := bind (read 1) (fun bs => ret (le_uint bs)).
Definition uint16 : reader Z := bind (read 2) (fun bs => ret (le_uint bs)).
Definition uint32 : reader Z := bind (read 4) (fun bs => ret (le_uint bs)).

(** [uint32 Field[count]] *)
Fixpoint uint32_array (count : nat) : reader (list Z) :=
  match count with
  | O => ret []
  | S n => bind uint32 (fun v => bind (uint32_array n) (fun vs => ret (v :: vs)))
  end.

(** ** Records of the [cdef] *)

Record SECURITY_DESCRIPTOR : Type := {
  sd_Revision : Z;
  sd_Sbz1 : Z;
  Control : Z;
  OffsetOwner : Z;
  OffsetGroup : Z;
  OffsetSacl : Z;
  OffsetDacl : Z
}.

Record LDAP_SID : Type := {
  Revision : Z;
  SubAuthorityCount : Z;
  IdentifierAuthority : bytes;      (* LDAP_SID_IDENTIFIER_AUTHORITY.Value, 6 bytes *)
  SubAuthority : list Z
}.

Record ACL_struct : Type := {
  AclRevision : Z;
  acl_Sbz1 : Z;
  AclSize : Z;
  AceCount : Z;
  Sbz2 : Z;
  acl_Data : bytes                  (* char Data[AclSize - 8] *)
}.

Record ACE_struct : Type := {
  AceType : Z;
  AceFlags : Z;
  AceSize : Z;
  ace_Data : bytes                  (* char Data[AceSize - 4] *)
}.

Record ACCESS_ALLOWED_ACE_struct : Type := {
  aa_Mask : Z;
  aa_Sid : LDAP_SID
}.

Record ACCESS_ALLOWED_OBJECT_ACE_struct : Type := {
  Mask : Z;
  Flags : Z;
  ObjectType : bytes;               (* char ObjectType[Flags & 1 * 16] *)
  InheritedObjectType : bytes;      (* char InheritedObjectType[Flags & 2 * 8] *)
  Sid : LDAP_SID
}.

(** Modelled from the spec: the length expressions of the two optional GUID
    slots.  The [cdef] writes them [Flags & 1 * 16] and [Flags & 2 * 8]; the
    expression evaluator of [bloodhound.lib.cstruct] is not among the
    sources, and the slots are 16 bytes when the flag bit is set and empty
    otherwise, which is the reading [(Flags & 1) * 16] and [(Flags & 2) * 8]. *)
Definition ObjectType_len (flags : Z) : Z := Z.land flags 1 * 16.
Definition InheritedObjectType_len (flags : Z) : Z := Z.land flags 2 * 8.

Section Decoders.
Local Open Scope reader_scope.

Definition read_SECURITY_DESCRIPTOR : reader SECURITY_DESCRIPTOR :=
  rev <- uint8 ;; sbz <- uint8 ;; ctl <- uint16 ;;
  oo <- uint32 ;; og <- uint32 ;; os <- uint32 ;; od <- uint32 ;;
  ret {| sd_Revision := rev; sd_Sbz1 := sbz; Control := ctl;
         OffsetOwner := oo; OffsetGroup := og;
         OffsetSacl := os; OffsetDacl := od |}.

Definition read_LDAP_SID : reader LDAP_SID :=
  rev <- uint8 ;; cnt <- uint8 ;; auth <- read 6 ;;
  subs <- uint32_array (Z.to_nat cnt) ;;
  ret {| Revision := rev; SubAuthorityCount := cnt;
         IdentifierAuthority := auth; SubAuthority := subs |}.

Definition read_ACL : reader ACL_struct :=
  rev <- uint8 ;; sbz <- uint8 ;; size <- uint16 ;;
  cnt <- uint16 ;; sbz2 <- uint16 ;; data <- read (size - 8) ;;
  ret {| AclRevision := rev; acl_Sbz1 := sbz; AclSize := size;
         AceCount := cnt; Sbz2 := sbz2; acl_Data := data |}.

Definition read_ACE : reader ACE_struct :=
  ty <- uint8 ;; fl <- uint8 ;; size <- uint16 ;; data <- read (size - 4) ;;
  ret {| AceType := ty; AceFlags := fl; AceSize := size; ace_Data := data |}.

Definition read_ACCESS_ALLOWED_ACE : reader ACCESS_ALLOWED_ACE_struct :=
  m <- uint32 ;; s <- read_LDAP_SID ;;
  ret {| aa_Mask := m; aa_Sid := s |}.

Definition read_ACCESS_ALLOWED_OBJECT_ACE : reader ACCESS_ALLOWED_OBJECT_ACE_struct :=
  m <- uint32 ;; f <- uint32 ;;
  ot <- read (ObjectType_len f) ;;
  iot <- read (InheritedObjectType_len f) ;;
  s <- read_LDAP_SID ;;
  ret {| Mask := m; Flags := f; ObjectType := ot;
         InheritedObjectType := iot; Sid := s |}.

End Decoders.

(** ** The Python objects built on top of the records *)

(** [ACE.acedata]: an [ACCESS_ALLOWED_ACE] (or its subclass
    [ACCESS_DENIED_ACE]) or an [ACCESS_ALLOWED_OBJECT_ACE] (or
    [ACCESS_DENIED_OBJECT_ACE]). *)
Inductive AceData : Type :=
| PlainAce (data : ACCESS_ALLOWED_ACE_struct)
| ObjectAce (data : ACCESS_ALLOWED_OBJECT_ACE_struct).

Record ACE : Type := {
  ace : ACE_struct;
  acedata : option AceData          (* [None] for every other AceType *)
}.

Record ACL : Type := {
  acl : ACL_struct;
  aces : list ACE
}.

(** [owner_sid], [group_sid], [sacl] and [dacl] start out as [b''] and are
    replaced only when the offset is not 0: [None] stands for that [b'']. *)
Record SecurityDescriptor : Type := {
  descriptor : SECURITY_DESCRIPTOR;
  owner_sid : option LDAP_SID;
  group_sid : option LDAP_SID;
  sacl : option ACL;
  dacl : option ACL
}.

(** Decoding from [BytesIO(data)]: a stream of its own, which leaves the
    cursor of the enclosing one where it is. *)
Definition from_buffer {A} (data : bytes) (m : reader A) : reader A :=
  fun _ p =>
    match run m data with
    | Ok a => Ok (a, p)
    | Raise e => Raise e
    end.

Section Objects.
Local Open Scope reader_scope.

Definition ACE_init : reader ACE :=
  a <- read_ACE ;;
  let buf := ace_Data a in
  if AceType a =? 0 then
    (* ACCESS_ALLOWED_ACE *)
    d <- from_buffer buf read_ACCESS_ALLOWED_ACE ;;
    ret {| ace := a; acedata := Some (PlainAce d) |}
  else if AceType a =? 5 then
    (* ACCESS_ALLOWED_OBJECT_ACE *)
    d <- from_buffer buf read_ACCESS_ALLOWED_OBJECT_ACE ;;
    ret {| ace := a; acedata := Some (ObjectAce d) |}
  else if AceType a =? 1 then
    (* ACCESS_DENIED_ACE *)
    d <- from_buffer buf read_ACCESS_ALLOWED_ACE ;;
    ret {| ace := a; acedata := Some (PlainAce d) |}
  else if AceType a =? 6 then
    (* ACCESS_DENIED_OBJECT_ACE *)
    d <- from_buffer buf read_ACCESS_ALLOWED_OBJECT_ACE ;;
    ret {| ace := a; acedata := Some (ObjectAce d) |}
  else ret {| ace := a; acedata := None |}.

(** [for i in range(self.acl.AceCount): self.aces.append(ACE(buf))] *)
Fixpoint read_aces (count : nat) : reader (list ACE) :=
  match count with
  | O => ret []
  | S n => a <- ACE_init ;; rest <- read_aces n ;; ret (a :: rest)
  end.

Definition ACL_init : reader ACL :=
  a <- read_ACL ;;
  l <- from_buffer (acl_Data a) (read_aces (Z.to_nat (AceCount a))) ;;
  ret {| acl := a; aces := l |}.

(** An optional member: decoded after a seek when its offset is not 0. *)
Definition at_offset {A} (offset : Z) (m : reader A) : reader (option A) :=
  if offset =? 0 then ret None
  else _ <- seek offset ;; a <- m ;; ret (Some a).

Definition SecurityDescriptor_init : reader SecurityDescriptor :=
  d <- read_SECURITY_DESCRIPTOR ;;
  o <- at_offset (OffsetOwner d) read_LDAP_SID ;;
  g <- at_offset (OffsetGroup d) read_LDAP_SID ;;
  s <- at_offset (OffsetSacl d) ACL_init ;;
  dl <- at_offset (OffsetDacl d) ACL_init ;;
  ret {| descriptor := d; owner_sid := o; group_sid := g;
         sacl := s; dacl := dl |}.

End Objects.

(** ** Text: decimal and hexadecimal rendering, GUID strings *)

(** ['{:d}'.format(v)] on a non-negative integer. *)
Definition decimal (z : Z) : string := NilZero.string_of_int (Z.to_int z).

Definition hex_char (d : Z) : ascii :=
  nth (Z.to_nat d) (list_ascii_of_string "0123456789ABCDEF") "0"%char.

(** ['%0wX' % n] for a value that fits in [w] digits. *)
Fixpoint hex_fixed (w : nat) (n : Z) : string :=
  match w with
  | O => EmptyString
  | S w' => (hex_fixed w' (n / 16) ++ String (hex_char (n mod 16)) EmptyString)%string
  end.

Definition lower_char (c : ascii) : ascii :=
  let n := nat_of_ascii c in
  if ((65 <=? n) && (n <=? 90))%nat then ascii_of_nat (n + 32) else c.

(** [str.lower()] on ASCII text. *)
Fixpoint lower (s : string) : string :=
  match s with
  | EmptyString => EmptyString
  | String c rest => String (lower_char c) (lower rest)
  end.

Definition slice (from to : nat) (bs : bytes) : bytes :=
  firstn (to - from) (skipn from bs).

(** [impacket.uuid.bin_to_string]: the first three fields are
    little-endian, the last three big-endian.  It is only ever handed the
    16-byte slot of an object ACE. *)
Definition bin_to_string (uuid : bytes) : string :=
  let uuid1 := le_uint (slice 0 4 uuid) in
  let uuid2 := le_uint (slice 4 6 uuid) in
  let uuid3 := le_uint (slice 6 8 uuid) in
  let uuid4 := be_uint (slice 8 10 uuid) in
  let uuid5 := be_uint (slice 10 12 uuid) in
  let uuid6 := be_uint (slice 12 16 uuid) in
  (hex_fixed 8 uuid1 ++ "-" ++ hex_fixed 4 uuid2 ++ "-" ++ hex_fixed 4 uuid3 ++ "-"
   ++ hex_fixed 4 uuid4 ++ "-" ++ hex_fixed 4 uuid5 ++ hex_fixed 8 uuid6)%string.

Definition hex_digit_value (c : ascii) : Z :=
  let n := nat_of_ascii c in
  if ((48 <=? n) && (n <=? 57))%nat then Z.of_nat (n - 48)
  else if ((97 <=? n) && (n <=? 102))%nat then Z.of_nat (n - 87)
  else if ((65 <=? n) && (n <=? 70))%nat then Z.of_nat (n - 55)
  else 0.

(** [int(x, 16)] *)
Definition int16 (s : string) : Z :=
  fold_left (fun acc c => 16 * acc + hex_digit_value c) (list_ascii_of_string s) 0.

(** [struct.pack('<...')] of one unsigned field of [w] bytes. *)
Fixpoint le_bytes (w : nat) (n : Z) : bytes :=
  match w with
  | O => []
  | S w' => byte_of_Z (n mod 256) :: le_bytes w' (n / 256)
  end.

Definition be_bytes (w : nat) (n : Z) : bytes := rev (le_bytes w n).

(** [impacket.uuid.string_to_bin] on the dashed form
    [xxxxxxxx-xxxx-xxxx-xxxx-xxxxxxxxxxxx]. *)
Definition string_to_bin (uuid : string) : bytes :=
  let uuid1 := int16 (substring 0 8 uuid) in
  let uuid2 := int16 (substring 9 4 uuid) in
  let uuid3 := int16 (substring 14 4 uuid) in
  let uuid4 := int16 (substring 19 4 uuid) in
  let uuid5 := int16 (substring 24 4 uuid) in
  let uuid6 := int16 (substring 28 8 uuid) in
  (le_bytes 4 uuid1 ++ le_bytes 2 uuid2 ++ le_bytes 2 uuid3
   ++ be_bytes 2 uuid4 ++ be_bytes 2 uuid5 ++ be_bytes 4 uuid6)%list.

(** ** Lookup tables *)

Fixpoint assoc {V : Type} (key : string) (table : list (string * V)) : option V :=
  match table with
  | [] => None
  | (k, v) :: rest => if String.eqb key k then Some v else assoc key rest
  end.

Definition EXTRIGHTS_GUID_MAPPING : list (string * bytes) :=
  [ ("GetChanges", string_to_bin "1131f6aa-9c07-11d1-f79f-00c04fc2dcd2");
    ("GetChangesAll", string_to_bin "1131f6ad-9c07-11d1-f79f-00c04fc2dcd2");
    ("WriteMember", string_to_bin "bf9679c0-0de6-11d0-a285-00aa003049e2");
    ("UserForceChangePassword", string_to_bin "00299570-246d-11d0-a768-00aa006e0529") ].

(** [EXTRIGHTS_GUID_MAPPING[name]], for the four names the evaluator uses. *)
Definition extright (name : string) : bytes :=
  match assoc name EXTRIGHTS_GUID_MAPPING with
  | Some g => g
  | None => []
  end.

Definition OBJECTTYPE_GUID_MAP : list (string * string) :=
  [ ("group", "bf967a9c-0de6-11d0-a285-00aa003049e2");
    ("domain", "19195a5a-6da0-11d0-afd3-00c04fd930c9");
    ("organizationalUnit", "bf967aa5-0de6-11d0-a285-00aa003049e2");
    ("user", "bf967aba-0de6-11d0-a285-00aa003049e2");
    ("groupPolicyContainer", "f30e3bc2-9ff0-11d1-b603-0000f80367c1") ].

(** ** Access masks and flags *)

Module ACCESS_MASK.
Definition GENERIC_READ : Z := 0x00020094.
Definition GENERIC_WRITE : Z := 0x00020028.
Definition GENERIC_EXECUTE : Z := 0x00020004.
Definition GENERIC_ALL : Z := 0x000F01FF.
Definition WRITE_OWNER : Z := 0x00080000.
Definition WRITE_DACL : Z := 0x00040000.
Definition READ_CONTROL : Z := 0x00020000.
Definition DELETE : Z := 0x00010000.
Definition ADS_RIGHT_DS_CONTROL_ACCESS : Z := 0x00000100.
Definition ADS_RIGHT_DS_CREATE_CHILD : Z := 0x00000001.
Definition ADS_RIGHT_DS_DELETE_CHILD : Z := 0x00000002.
Definition ADS_RIGHT_DS_READ_PROP : Z := 0x00000010.
Definition ADS_RIGHT_DS_WRITE_PROP : Z := 0x00000020.
Definition ADS_RIGHT_DS_SELF : Z := 0x00000008.

(** [return self.mask & priv == priv] *)
Definition has_priv (mask priv : Z) : bool := Z.land mask priv =? priv.

(** [self.mask |= priv]: the mask the object holds afterwards. *)
Definition set_priv (mask priv : Z) : Z := Z.lor mask priv.

(** [self.mask ^= priv]: the mask the object holds afterwards. *)
Definition remove_priv (mask priv : Z) : Z := Z.lxor mask priv.
End ACCESS_MASK.
Import ACCESS_MASK.

(** Flag constants of [ACE]. *)
Definition CONTAINER_INHERIT_ACE : Z := 0x02.
Definition INHERIT_ONLY_ACE : Z := 0x08.
Definition INHERITED_ACE : Z := 0x10.
Definition OBJECT_INHERIT_ACE : Z := 0x01.

(** [ACE.has_flag]: [return self.ace.AceFlags & flag == flag] *)
Definition ACE_has_flag (a : ACE) (flag : Z) : bool :=
  Z.land (AceFlags (ace a)) flag =? flag.

(** Flag constants of [ACCESS_ALLOWED_OBJECT_ACE]. *)
Definition ACE_OBJECT_TYPE_PRESENT : Z := 0x01.
Definition ACE_INHERITED_OBJECT_TYPE_PRESENT : Z := 0x02.

(** [ACCESS_ALLOWED_OBJECT_ACE.has_flag]: [return self.data.Flags & flag == flag] *)
Definition has_flag (o : ACCESS_ALLOWED_OBJECT_ACE_struct) (flag : Z) : bool :=
  Z.land (Flags o) flag =? flag.

Definition get_object_type (o : ACCESS_ALLOWED_OBJECT_ACE_struct) : option string :=
  if has_flag o ACE_OBJECT_TYPE_PRESENT then Some (bin_to_string (ObjectType o))
  else None.

Definition get_inherited_object_type (o : ACCESS_ALLOWED_OBJECT_ACE_struct) : option string :=
  if has_flag o ACE_INHERITED_OBJECT_TYPE_PRESENT
  then Some (bin_to_string (InheritedObjectType o))
  else None.

(** [LdapSid.__repr__] *)
Definition LdapSid_str (s : LDAP_SID) : string :=
  ("S-" ++ decimal (Revision s) ++ "-"
   ++ decimal (Z_of_byte (nth 5 (IdentifierAuthority s) x00)) ++ "-"
   ++ String.concat "-" (map decimal (SubAuthority s)))%string.

(** [str(sd.owner_sid)]: the absent owner is still the [b''] it was
    initialised to, and [str(b'')] is the four characters [b''] . *)
Definition owner_str (o : option LDAP_SID) : string :=
  match o with
  | Some s => LdapSid_str s
  | None => "b''"
  end.

(** ** The rights evaluator *)

Record Relation : Type := {
  rightname : string;
  sid : string;
  acetype : string
}.

Definition build_relation (sid relation acetype : string) : Relation :=
  {| rightname := relation; sid := sid; acetype := acetype |}.

Definition ignoresids : list string := ["S-1-3-0"; "S-1-5-18"].

(** [x in l] on a list of strings. *)
Definition str_in (x : string) (l : list string) : bool :=
  existsb (String.eqb x) l.

Fixpoint bytes_eqb (a b : bytes) : bool :=
  match a, b with
  | [], [] => true
  | x :: a', y :: b' => Byte.eqb x y && bytes_eqb a' b'
  | _, _ => false
  end.

Definition ace_applies (ace_guid object_class : string) : bool :=
  match assoc object_class OBJECTTYPE_GUID_MAP with
  | None => false                       (* except KeyError: return False *)
  | Some our_ace_guid => String.eqb ace_guid our_ace_guid
  end.

(** [ace_applies(guid.lower(), entrytype)] on the result of
    [get_object_type] / [get_inherited_object_type]; every call is guarded
    by the flag that makes the getter return a string. *)
Definition applies_to (guid : option string) (entrytype : string) : bool :=
  match guid with
  | Some g => ace_applies (lower g) entrytype
  | None => false
  end.

Definition can_write_property (o : ACCESS_ALLOWED_OBJECT_ACE_struct)
    (binproperty : bytes) : bool :=
  if negb (has_priv (Mask o) ADS_RIGHT_DS_WRITE_PROP) then false
  else if negb (has_flag o ACE_OBJECT_TYPE_PRESENT) then true
  else bytes_eqb (ObjectType o) binproperty.

Definition has_extended_right (o : ACCESS_ALLOWED_OBJECT_ACE_struct)
    (binrightguid : bytes) : bool :=
  if negb (has_priv (Mask o) ADS_RIGHT_DS_CONTROL_ACCESS) then false
  else if negb (has_flag o ACE_OBJECT_TYPE_PRESENT) then true
  else bytes_eqb (ObjectType o) binrightguid.

(** [relations.append(...)] under a condition. *)
Definition emit (cond : bool) (r : Relation) : list Relation :=
  if cond then [r] else [].

Section ObjectAce.
Variable entrytype : string.
Variable ace_object : ACE.
Variable o : ACCESS_ALLOWED_OBJECT_ACE_struct.   (* ace_object.acedata.data *)
Variable sid : string.

(** Set on this object but only to be inherited: [continue]. *)
Definition inherit_only_template : bool :=
  negb (ACE_has_flag ace_object INHERITED_ACE)
  && ACE_has_flag ace_object INHERIT_ONLY_ACE.

(** Inherited with an InheritedObjectType of another class: [continue]. *)
Definition inherited_type_mismatch : bool :=
  ACE_has_flag ace_object INHERITED_ACE
  && has_flag o ACE_INHERITED_OBJECT_TYPE_PRESENT
  && negb (applies_to (get_inherited_object_type o) entrytype).

Definition generic_access (mask : Z) : bool :=
  has_priv mask GENERIC_ALL || has_priv mask WRITE_DACL
  || has_priv mask WRITE_OWNER || has_priv mask GENERIC_WRITE.

(** A generic right on an ObjectType of another class: [continue]. *)
Definition object_type_mismatch : bool :=
  has_flag o ACE_OBJECT_TYPE_PRESENT
  && negb (applies_to (get_object_type o) entrytype).

(** Lines 105-130.  The boolean is [true] when the block left the loop
    body with [continue]. *)
Definition generic_rights : list Relation * bool :=
  let mask := Mask o in
  if generic_access mask then
    if object_type_mismatch then ([], true)
    else if has_priv mask GENERIC_ALL then
      ([build_relation sid "GenericAll" EmptyString], true)
    else if has_priv mask GENERIC_WRITE && negb (String.eqb entrytype "domain") then
      ([build_relation sid "GenericWrite" EmptyString], true)
    else
      (emit (has_priv mask GENERIC_WRITE) (build_relation sid "GenericWrite" EmptyString)
       ++ emit (has_priv mask WRITE_DACL) (build_relation sid "WriteDacl" EmptyString)
       ++ emit (has_priv mask WRITE_OWNER) (build_relation sid "WriteOwner" EmptyString),
       false)
  else ([], false).

(** Lines 132-139. *)
Definition property_write : list Relation :=
  let writeprivs := has_priv (Mask o) ADS_RIGHT_DS_WRITE_PROP in
  if writeprivs then
    emit (str_in entrytype ["user"; "group"]
          && negb (has_flag o ACE_OBJECT_TYPE_PRESENT))
         (build_relation sid "GenericWrite" EmptyString)
    ++ emit (String.eqb entrytype "group"
             && can_write_property o (extright "WriteMember"))
            (build_relation sid "WriteProperty" "AddMember")
  else [].

(** Lines 141-152. *)
Definition extended_rights : list Relation :=
  let control_access := has_priv (Mask o) ADS_RIGHT_DS_CONTROL_ACCESS in
  if control_access then
    emit (str_in entrytype ["user"; "domain"]
          && negb (has_flag o ACE_OBJECT_TYPE_PRESENT))
         (build_relation sid "ExtendedRight" "All")
    ++ emit (String.eqb entrytype "domain"
             && has_extended_right o (extright "GetChanges"))
            (build_relation sid "ExtendedRight" "GetChanges")
    ++ emit (String.eqb entrytype "domain"
             && has_extended_right o (extright "GetChangesAll"))
            (build_relation sid "ExtendedRight" "GetChangesAll")
    ++ emit (String.eqb entrytype "user"
             && has_extended_right o (extright "UserForceChangePassword"))
            (build_relation sid "ExtendedRight" "User-Force-Change-Password")
  else [].

(** The body of [if ace_object.ace.AceType == 0x05:]. *)
Definition object_ace_relations : list Relation :=
  if inherit_only_template then []
  else if inherited_type_mismatch then []
  else
    let '(rels, stop) := generic_rights in
    if stop then rels
    else rels ++ property_write ++ extended_rights.

End ObjectAce.

(** The body of [if ace_object.ace.AceType == 0x00:]. *)
Definition plain_ace_relations (entrytype : string) (mask : Z) (sid : string)
    : list Relation :=
  if has_priv mask GENERIC_ALL then [build_relation sid "GenericAll" EmptyString]
  else
    emit (has_priv mask GENERIC_WRITE) (build_relation sid "GenericWrite" EmptyString)
    ++ emit (has_priv mask WRITE_OWNER) (build_relation sid "WriteOwner" EmptyString)
    ++ emit (str_in entrytype ["user"; "domain"]
             && has_priv mask ADS_RIGHT_DS_CONTROL_ACCESS)
            (build_relation sid "ExtendedRight" "All")
    ++ emit (has_priv mask WRITE_DACL) (build_relation sid "WriteDacl" EmptyString).

Definition acedata_sid (d : AceData) : LDAP_SID :=
  match d with
  | PlainAce p => aa_Sid p
  | ObjectAce ob => Sid ob
  end.

Definition acedata_mask (d : AceData) : Z :=
  match d with
  | PlainAce p => aa_Mask p
  | ObjectAce ob => Mask ob
  end.

(** One turn of the loop over [sd.dacl.aces]: the relations this ACE
    appends.  [ACE.__init__] gives type 0x05 an object body and type 0x00 a
    plain one; an ACE of one of these two types without a body, or of type
    0x05 with a plain body, has no attribute the loop asks for. *)
Definition ace_relations (entrytype : string) (ace_object : ACE)
    : result (list Relation) :=
  let ty := AceType (ace ace_object) in
  if negb (ty =? 5) && negb (ty =? 0) then Ok []
  else
    match acedata ace_object with
    | None => Raise AttributeError
    | Some d =>
        let sid := LdapSid_str (acedata_sid d) in
        if str_in sid ignoresids then Ok []
        else if ty =? 5 then
          match d with
          | ObjectAce ob => Ok (object_ace_relations entrytype ace_object ob sid)
          | PlainAce _ => Raise AttributeError
          end
        else Ok (plain_ace_relations entrytype (acedata_mask d) sid)
    end.

Fixpoint dacl_relations (entrytype : string) (l : list ACE)
    : result (list Relation) :=
  match l with
  | [] => Ok []
  | a :: rest =>
      match ace_relations entrytype a with
      | Raise e => Raise e
      | Ok here =>
          match dacl_relations entrytype rest with
          | Raise e => Raise e
          | Ok later => Ok (here ++ later)
          end
      end
  end.

Definition owner_relation (sd : SecurityDescriptor) : list Relation :=
  let osid := owner_str (owner_sid sd) in
  if str_in osid ignoresids then [] else [build_relation osid "Owner" EmptyString].

(** Everything after [sd = SecurityDescriptor(BytesIO(acl))]. *)
Definition evaluate (entrytype : string) (sd : SecurityDescriptor)
    : result (list Relation) :=
  match dacl sd with
  | None => Raise AttributeError        (* [b''] has no attribute [aces] *)
  | Some d =>
      match dacl_relations entrytype (aces d) with
      | Raise e => Raise e
      | Ok rels => Ok (owner_relation sd ++ rels)
      end
  end.

(** [acl] is [None] when the attribute is absent. *)
Definition parse_binary_acl {Entry : Type} (entry : Entry) (entrytype : string)
    (acl : option bytes) : result (Entry * list Relation) :=
  match acl with
  | None | Some [] => Ok (entry, [])
  | Some data =>
      match run SecurityDescriptor_init data with
      | Raise e => Raise e
      | Ok sd =>
          match evaluate entrytype sd with
          | Raise e => Raise e
          | Ok relations => Ok (entry, relations)
          end
      end
  end.

(** ** Which ACEs the loop looks at *)

(** What [ACE.__init__] establishes: types 0x00 and 0x01 carry a plain
    body, types 0x05 and 0x06 an object body, every other type none. *)
Definition body_matches_type (a : ACE) : bool :=
  let ty := AceType (ace a) in
  match acedata a with
  | Some (PlainAce _) => (ty =? 0) || (ty =? 1)
  | Some (ObjectAce _) => (ty =? 5) || (ty =? 6)
  | None => negb ((ty =? 0) || (ty =? 1) || (ty =? 5) || (ty =? 6))
  end.

(** The ACE leaves the loop body through one of the [continue]s that come
    before any right is emitted: its type is neither 0x00 nor 0x05, its SID
    is ignored, or (object ACE) one of the three applicability tests
    rejects it. *)
Definition skipped (entrytype : string) (a : ACE) : bool :=
  let ty := AceType (ace a) in
  (negb (ty =? 5) && negb (ty =? 0))
  || match acedata a with
     | None => false
     | Some d =>
         str_in (LdapSid_str (acedata_sid d)) ignoresids
         || match d with
            | ObjectAce ob =>
                (ty =? 5)
                && (inherit_only_template a
                    || inherited_type_mismatch entrytype a ob
                    || (generic_access (Mask ob) && object_type_mismatch entrytype ob))
            | PlainAce _ => false
            end
     end.

(** ** Synthetic descriptors

    Encoders for the wire format, used to build concrete inputs. *)

Module Fixture.

Definition u8 (n : Z) : bytes := le_bytes 1 n.
Definition u16 (n : Z) : bytes := le_bytes 2 n.
Definition u32 (n : Z) : bytes := le_bytes 4 n.

Definition blen (bs : bytes) : Z := Z.of_nat (length bs).

(** A SID with authority [0,0,0,0,0,auth]. *)
Definition sid_bytes (auth : Z) (subs : list Z) : bytes :=
  u8 1 ++ u8 (Z.of_nat (length subs))
  ++ map byte_of_Z [0; 0; 0; 0; 0; auth] ++ flat_map u32 subs.

Definition ace_bytes (ty flags : Z) (body : bytes) : bytes :=
  u8 ty ++ u8 flags ++ u16 (blen body + 4) ++ body.

Definition plain_body (mask : Z) (s : bytes) : bytes := u32 mask ++ s.

Definition object_body (mask oflags : Z) (guids s : bytes) : bytes :=
  u32 mask ++ u32 oflags ++ guids ++ s.

Definition acl_bytes (count : Z) (tail : bytes) : bytes :=
  u8 2 ++ u8 0 ++ u16 (blen tail + 8) ++ u16 count ++ u16 0 ++ tail.

(** Header, then the owner (when given), then the DACL (when given). *)
Definition descriptor_bytes (owner dacl : option bytes) : bytes :=
  let ob := match owner with Some b => b | None => [] end in
  let db := match dacl with Some b => b | None => [] end in
  u8 1 ++ u8 0 ++ u16 0x8004
  ++ u32 (match owner with Some _ => 20 | None => 0 end)
  ++ u32 0 ++ u32 0
  ++ u32 (match dacl with Some _ => 20 + blen ob | None => 0 end)
  ++ ob ++ db.

Definition admin : bytes := sid_bytes 5 [21; 1; 2; 3; 500].
Definition helpdesk : bytes := sid_bytes 5 [21; 1; 2; 3; 1104].
Definition local_system : bytes := sid_bytes 5 [18].
Definition creator_owner : bytes := sid_bytes 3 [0].

Definition admin_sid : LDAP_SID :=
  {| Revision := 1; SubAuthorityCount := 5;
     IdentifierAuthority := map byte_of_Z [0; 0; 0; 0; 0; 5];
     SubAuthority := [21; 1; 2; 3; 500] |}.

Definition local_system_sid : LDAP_SID :=
  {| Revision := 1; SubAuthorityCount := 1;
     IdentifierAuthority := map byte_of_Z [0; 0; 0; 0; 0; 5];
     SubAuthority := [18] |}.

(** A decoded plain ACE (type 0x00) and a decoded object ACE (type 0x05). *)
Definition plain_ace (mask : Z) (s : LDAP_SID) : ACE :=
  {| ace := {| AceType := 0; AceFlags := 0; AceSize := 0; ace_Data := [] |};
     acedata := Some (PlainAce {| aa_Mask := mask; aa_Sid := s |}) |}.

Definition object_data (mask oflags : Z) (ot iot : bytes) (s : LDAP_SID)
    : ACCESS_ALLOWED_OBJECT_ACE_struct :=
  {| Mask := mask; Flags := oflags; ObjectType := ot;
     InheritedObjectType := iot; Sid := s |}.

Definition object_ace (aflags : Z) (d : ACCESS_ALLOWED_OBJECT_ACE_struct) : ACE :=
  {| ace := {| AceType := 5; AceFlags := aflags; AceSize := 0; ace_Data := [] |};
     acedata := Some (ObjectAce d) |}.

Definition helpdesk_sid : LDAP_SID :=
  {| Revision := 1; SubAuthorityCount := 5;
     IdentifierAuthority := map byte_of_Z [0; 0; 0; 0; 0; 5];
     SubAuthority := [21; 1; 2; 3; 1104] |}.

Definition helpdesk_str : string := "S-1-5-21-1-2-3-1104".

(** GENERIC_WRITE | WRITE_DACL | WRITE_OWNER *)
Definition write_all : Z := 0xE0028.

(** An object ACE body restricted to the WriteMember property, granting
    ADS_RIGHT_DS_WRITE_PROP, on the wire and decoded. *)
Definition write_member_body : bytes :=
  object_body 0x20 1 (extright "WriteMember") helpdesk.

Definition write_member_data : ACCESS_ALLOWED_OBJECT_ACE_struct :=
  object_data 0x20 1 (extright "WriteMember") [] helpdesk_sid.

(** The same restriction with WRITE_DACL granted as well. *)
Definition write_member_dacl_data : ACCESS_ALLOWED_OBJECT_ACE_struct :=
  object_data 0x40020 1 (extright "WriteMember") [] helpdesk_sid.

(** No owner, an empty DACL. *)
Definition no_owner : bytes := descriptor_bytes None (Some (acl_bytes 0 [])).

(** An owner, no DACL. *)
Definition no_dacl : bytes := descriptor_bytes (Some admin) None.

(** Local System owns the object; Creator Owner is granted GENERIC_ALL
    and the help desk WRITE_DACL. *)
Definition ignored_subjects : bytes :=
  descriptor_bytes (Some local_system)
    (Some (acl_bytes 2
       (ace_bytes 0 0 (plain_body 0x000F01FF creator_owner)
        ++ ace_bytes 0 0 (plain_body 0x00040000 helpdesk)))).

(** The tail holds one ACE, the header announces two. *)
Definition one_ace_tail : bytes :=
  ace_bytes 0 0 (plain_body 0x00040000 helpdesk).

Definition short_dacl : bytes :=
  descriptor_bytes (Some admin) (Some (acl_bytes 2 one_ace_tail)).

End Fixture.

(** ** ACEs that do not fit in the tail of their ACL *)

(** The [AceSize] field of the ACE header that starts at [p]. *)
Definition AceSize_at (tail : bytes) (p : nat) : Z :=
  le_uint (firstn 2 (skipn (p + 2) tail)).

(** [overruns tail count p]: taking [count] ACEs from [tail], starting at
    [p] and stepping by the declared sizes, leaves the tail: a header or a
    declared body ends beyond [length tail]. *)
Inductive overruns (tail : bytes) : nat -> nat -> Prop :=
| overrun_header : forall count p,
    (length tail < p + 4)%nat ->
    overruns tail (S count) p
| overrun_body : forall count p,
    (p + 4 <= length tail)%nat ->
    Z.of_nat (length tail) < Z.of_nat p + AceSize_at tail p ->
    overruns tail (S count) p
| overrun_later : forall count p,
    4 <= AceSize_at tail p ->
    overruns tail count (p + Z.to_nat (AceSize_at tail p)) ->
    overruns tail (S count) p.

(** Every failure of a decoder is a [MalformedDescriptor]. *)
Definition only_malformed {A} (m : reader A) : Prop :=
  forall buf p e, m buf p = Raise e -> e = MalformedDescriptor.

(** ** Who a relation names *)

Definition named (s : string) (r : Relation) : Prop := sid r = s.

Definition not_ignored (r : Relation) : Prop :=
  sid r <> "S-1-3-0" /\ sid r <> "S-1-5-18".

(** ** What a relation says *)

Definition kind (r : Relation) : string * string := (rightname r, acetype r).

(** The four generic rights, without qualifier. *)
Definition generic_kinds : list (string * string) :=
  [ ("GenericAll", EmptyString); ("GenericWrite", EmptyString);
    ("WriteDacl", EmptyString); ("WriteOwner", EmptyString) ].

(** Everything an ACE can add. *)
Definition ace_kinds : list (string * string) :=
  generic_kinds
  ++ [ ("WriteProperty", "AddMember"); ("ExtendedRight", "All");
       ("ExtendedRight", "GetChanges"); ("ExtendedRight", "GetChangesAll");
       ("ExtendedRight", "User-Force-Change-Password") ].

(** The loop looks at ACEs of type 0x00 and 0x05 only. *)
Definition looked_at (a : ACE) : bool :=
  (AceType (ace a) =? 0) || (AceType (ace a) =? 5).


(** The relations picked from a list of candidates, in order. *)
Definition select (l : list (bool * Relation)) : list Relation :=
  flat_map (fun c => emit (fst c) (snd c)) l.

(** An ACE with other flags in its header. *)
Definition with_flags (flags : Z) (a : ACE) : ACE :=
  {| ace := {| AceType := AceType (ace a); AceFlags := flags;
               AceSize := AceSize (ace a); ace_Data := ace_Data (ace a) |};
     acedata := acedata a |}.

(** ** Concrete runs *)

(** The scenario of a plain ACE granting GENERIC_ALL on a user entry. *)
Example generic_all_scenario :
  parse_binary_acl tt "user"
    (Some (Fixture.descriptor_bytes None
       (Some (Fixture.acl_bytes 1
          (Fixture.ace_bytes 0 0 (Fixture.plain_body 0x000F01FF Fixture.admin))))))
  = Ok (tt, [build_relation "b''" "Owner" EmptyString;
             build_relation "S-1-5-21-1-2-3-500" "GenericAll" EmptyString]).
Proof. vm_compute. reflexivity. Qed.

(** A known owner and one allow ACE granting WRITE_DACL. *)
Example owner_and_write_dacl :
  parse_binary_acl tt "group"
    (Some (Fixture.descriptor_bytes (Some Fixture.admin)
       (Some (Fixture.acl_bytes 1
          (Fixture.ace_bytes 0 0 (Fixture.plain_body 0x00040000 Fixture.helpdesk))))))
  = Ok (tt, [build_relation "S-1-5-21-1-2-3-500" "Owner" EmptyString;
             build_relation "S-1-5-21-1-2-3-1104" "WriteDacl" EmptyString]).
Proof. vm_compute. reflexivity. Qed.

(** GetChanges on a domain through an object ACE restricted to that right. *)
Example get_changes_scenario :
  parse_binary_acl tt "domain"
    (Some (Fixture.descriptor_bytes (Some Fixture.local_system)
       (Some (Fixture.acl_bytes 1
          (Fixture.ace_bytes 5 0
             (Fixture.object_body 0x100 1 (extright "GetChanges") Fixture.helpdesk))))))
  = Ok (tt, [build_relation "S-1-5-21-1-2-3-1104" "ExtendedRight" "GetChanges"]).
Proof. vm_compute. reflexivity. Qed.

(** ** The reader *)

Lemma bind_Ok {A B} (m : reader A) (k : A -> reader B) buf p b q :
  bind m k buf p = Ok (b, q) <->
  exists a p1, m buf p = Ok (a, p1) /\ k a buf p1 = Ok (b, q).
Proof.
  unfold bind. split.
  - destruct (m buf p) as [[a p1]|e]; [|discriminate].
    intros H. exists a, p1. split; [reflexivity|exact H].
  - intros (a & p1 & -> & H). exact H.
Qed.

Lemma ret_Ok {A} (a : A) buf p b q :
  ret a buf p = Ok (b, q) <-> b = a /\ q = p.
Proof.
  unfold ret. split.
  - intros H. injection H as <- <-. split; reflexivity.
  - intros [-> ->]. reflexivity.
Qed.

Lemma read_Ok n buf p bs q :
  read n buf p = Ok (bs, q) <->
  0 <= n /\ (p + Z.to_nat n <= length buf)%nat
  /\ bs = firstn (Z.to_nat n) (skipn p buf) /\ q = (p + Z.to_nat n)%nat.
Proof.
  unfold read.
  destruct (Z.ltb_spec n 0) as [Hn|Hn].
  - split; [discriminate | intros [H _]; lia].
  - destruct (Nat.leb_spec (p + Z.to_nat n) (length buf)) as [Hl|Hl].
    + split.
      * intros H. injection H as <- <-. repeat split; auto.
      * intros (_ & _ & -> & ->). reflexivity.
    + split; [discriminate | intros (_ & H & _); lia].
Qed.

(** What a successful read returns lies inside the buffer. *)
Lemma read_in_bounds n buf p bs q :
  read n buf p = Ok (bs, q) ->
  (p <= q <= length buf)%nat /\ bs = slice p q buf /\ length bs = (q - p)%nat.
Proof.
  intros H. apply read_Ok in H. destruct H as (Hn & Hl & -> & ->).
  unfold slice.
  replace (p + Z.to_nat n - p)%nat with (Z.to_nat n) by lia.
  repeat split; try lia.
  rewrite length_firstn, length_skipn. lia.
Qed.

Lemma uint_Ok w buf p v q :
  bind (read w) (fun bs => ret (le_uint bs)) buf p = Ok (v, q) ->
  0 <= w /\ q = (p + Z.to_nat w)%nat /\ (q <= length buf)%nat
  /\ v = le_uint (firstn (Z.to_nat w) (skipn p buf)).
Proof.
  intros H. apply bind_Ok in H. destruct H as (bs & p1 & Hr & Hk).
  apply read_Ok in Hr. destruct Hr as (Hw & Hl & -> & ->).
  apply ret_Ok in Hk. destruct Hk as [-> ->].
  repeat split; auto.
Qed.

(** *** Failures are [MalformedDescriptor] *)

Lemma only_malformed_ret {A} (a : A) : only_malformed (ret a).
Proof. intros buf p e H. discriminate H. Qed.

Lemma only_malformed_bind {A B} (m : reader A) (k : A -> reader B) :
  only_malformed m -> (forall a, only_malformed (k a)) ->
  only_malformed (bind m k).
Proof.
  intros Hm Hk buf p e. unfold bind.
  destruct (m buf p) as [[a p1]|e1] eqn:E.
  - apply Hk.
  - intros H. injection H as <-. exact (Hm _ _ _ E).
Qed.

Lemma only_malformed_read n : only_malformed (read n).
Proof.
  intros buf p e. unfold read.
  destruct (n <? 0); [|destruct (_ <=? _)%nat]; intros H;
    try discriminate; injection H as <-; reflexivity.
Qed.

Lemma only_malformed_seek z : only_malformed (seek z).
Proof. intros buf p e H. discriminate H. Qed.

Lemma only_malformed_from_buffer {A} data (m : reader A) :
  only_malformed m -> only_malformed (from_buffer data m).
Proof.
  intros Hm buf p e. unfold from_buffer, run.
  destruct (m data 0%nat) as [[a q]|e1] eqn:E; [discriminate|].
  intros H. injection H as <-. exact (Hm _ _ _ E).
Qed.

Create HintDb malformed.
#[local] Hint Resolve only_malformed_ret only_malformed_read only_malformed_seek
  only_malformed_from_buffer : malformed.

Ltac malformed :=
  repeat first
    [ solve [auto with malformed]
    | apply only_malformed_bind; [|intros ?] ].

Lemma only_malformed_uint8 : only_malformed uint8.
Proof. unfold uint8. malformed. Qed.
Lemma only_malformed_uint16 : only_malformed uint16.
Proof. unfold uint16. malformed. Qed.
Lemma only_malformed_uint32 : only_malformed uint32.
Proof. unfold uint32. malformed. Qed.
#[local] Hint Resolve only_malformed_uint8 only_malformed_uint16
  only_malformed_uint32 : malformed.

Lemma only_malformed_uint32_array n : only_malformed (uint32_array n).
Proof. induction n as [|n IH]; simpl; malformed. Qed.
#[local] Hint Resolve only_malformed_uint32_array : malformed.

Lemma only_malformed_LDAP_SID : only_malformed read_LDAP_SID.
Proof. unfold read_LDAP_SID. malformed. Qed.
#[local] Hint Resolve only_malformed_LDAP_SID : malformed.

Lemma only_malformed_SECURITY_DESCRIPTOR : only_malformed read_SECURITY_DESCRIPTOR.
Proof. unfold read_SECURITY_DESCRIPTOR. malformed. Qed.

Lemma only_malformed_read_ACL : only_malformed read_ACL.
Proof. unfold read_ACL. malformed. Qed.

Lemma only_malformed_read_ACE : only_malformed read_ACE.
Proof. unfold read_ACE. malformed. Qed.

Lemma only_malformed_ALLOWED : only_malformed read_ACCESS_ALLOWED_ACE.
Proof. unfold read_ACCESS_ALLOWED_ACE. malformed. Qed.

Lemma only_malformed_ALLOWED_OBJECT : only_malformed read_ACCESS_ALLOWED_OBJECT_ACE.
Proof. unfold read_ACCESS_ALLOWED_OBJECT_ACE. malformed. Qed.
#[local] Hint Resolve only_malformed_SECURITY_DESCRIPTOR only_malformed_read_ACL
  only_malformed_read_ACE only_malformed_ALLOWED only_malformed_ALLOWED_OBJECT
  : malformed.

Lemma only_malformed_ACE_init : only_malformed ACE_init.
Proof.
  unfold ACE_init. apply only_malformed_bind; [auto with malformed|].
  intros a. cbv zeta.
  repeat match goal with |- only_malformed (if ?c then _ else _) => destruct c end;
    malformed.
Qed.
#[local] Hint Resolve only_malformed_ACE_init : malformed.

Lemma only_malformed_read_aces n : only_malformed (read_aces n).
Proof. induction n as [|n IH]; simpl; malformed. Qed.
#[local] Hint Resolve only_malformed_read_aces : malformed.

Lemma only_malformed_ACL_init : only_malformed ACL_init.
Proof. unfold ACL_init. malformed. Qed.
#[local] Hint Resolve only_malformed_ACL_init : malformed.

Lemma only_malformed_at_offset {A} off (m : reader A) :
  only_malformed m -> only_malformed (at_offset off m).
Proof. intros H. unfold at_offset. destruct (off =? 0); malformed. Qed.
#[local] Hint Resolve only_malformed_at_offset : malformed.

Lemma only_malformed_SecurityDescriptor_init : only_malformed SecurityDescriptor_init.
Proof. unfold SecurityDescriptor_init. malformed. Qed.

Lemma uint8_Ok buf p v q :
  uint8 buf p = Ok (v, q) ->
  q = (p + 1)%nat /\ (q <= length buf)%nat /\ v = le_uint (firstn 1 (skipn p buf)).
Proof. intros H. apply uint_Ok in H. simpl in H. intuition. Qed.

Lemma uint16_Ok buf p v q :
  uint16 buf p = Ok (v, q) ->
  q = (p + 2)%nat /\ (q <= length buf)%nat /\ v = le_uint (firstn 2 (skipn p buf)).
Proof. intros H. apply uint_Ok in H. simpl in H. intuition. Qed.

Lemma uint32_Ok buf p v q :
  uint32 buf p = Ok (v, q) ->
  q = (p + 4)%nat /\ (q <= length buf)%nat /\ v = le_uint (firstn 4 (skipn p buf)).
Proof. intros H. apply uint_Ok in H. simpl in H. intuition. Qed.

(** Take a successful run of a decoder apart, field by field. *)
Ltac fields H :=
  repeat match type of H with
  | bind _ _ _ _ = Ok _ =>
      let a := fresh "v" in let q := fresh "q" in
      let Hm := fresh "Hm" in
      apply bind_Ok in H; destruct H as (a & q & Hm & H);
      first [ apply uint8_Ok in Hm | apply uint16_Ok in Hm
            | apply uint32_Ok in Hm | apply read_Ok in Hm | idtac ]
  end.

(** ** Bits *)

Lemma land_pow2 (f k : Z) :
  0 <= k -> Z.land f (2 ^ k) = if Z.testbit f k then 2 ^ k else 0.
Proof.
  intros Hk. apply Z.bits_inj'. intros n Hn.
  rewrite Z.land_spec, Z.pow2_bits_eqb by assumption.
  destruct (Z.eqb_spec k n) as [->|Hne].
  - destruct (Z.testbit f n) eqn:E.
    + rewrite Z.pow2_bits_true by assumption. reflexivity.
    + rewrite Z.bits_0. reflexivity.
  - rewrite andb_false_r.
    destruct (Z.testbit f k).
    + rewrite Z.pow2_bits_false by assumption. reflexivity.
    + rewrite Z.bits_0. reflexivity.
Qed.

Lemma has_flag_bit0 o :
  has_flag o ACE_OBJECT_TYPE_PRESENT = Z.testbit (Flags o) 0.
Proof.
  unfold has_flag, ACE_OBJECT_TYPE_PRESENT.
  change 1 with (2 ^ 0). rewrite land_pow2 by lia.
  destruct (Z.testbit (Flags o) 0); reflexivity.
Qed.

Lemma has_flag_bit1 o :
  has_flag o ACE_INHERITED_OBJECT_TYPE_PRESENT = Z.testbit (Flags o) 1.
Proof.
  unfold has_flag, ACE_INHERITED_OBJECT_TYPE_PRESENT.
  change 2 with (2 ^ 1). rewrite land_pow2 by lia.
  destruct (Z.testbit (Flags o) 1); reflexivity.
Qed.

Lemma ObjectType_len_bit f :
  Z.to_nat (ObjectType_len f) = if Z.testbit f 0 then 16%nat else 0%nat.
Proof.
  unfold ObjectType_len. change 1 with (2 ^ 0). rewrite land_pow2 by lia.
  destruct (Z.testbit f 0); reflexivity.
Qed.

Lemma InheritedObjectType_len_bit f :
  Z.to_nat (InheritedObjectType_len f) = if Z.testbit f 1 then 16%nat else 0%nat.
Proof.
  unfold InheritedObjectType_len. change 2 with (2 ^ 1). rewrite land_pow2 by lia.
  destruct (Z.testbit f 1); reflexivity.
Qed.

Lemma land_eq_bits (m p : Z) :
  Z.land m p = p <->
  forall i : N, Z.testbit p (Z.of_N i) = true -> Z.testbit m (Z.of_N i) = true.
Proof.
  split.
  - intros H i Hp. rewrite <- H in Hp. rewrite Z.land_spec in Hp.
    apply andb_true_iff in Hp. tauto.
  - intros H. apply Z.bits_inj'. intros n Hn.
    rewrite Z.land_spec.
    destruct (Z.testbit p n) eqn:E.
    + specialize (H (Z.to_N n)). rewrite Z2N.id in H by assumption.
      rewrite (H E). reflexivity.
    + apply andb_false_r.
Qed.

(** ** Access-mask and flag tests *)

(** C7: [has_priv] is an exact match on bits: it holds exactly when
    [mask & priv == priv], that is when every bit of [priv] is set in
    [mask]; a non-empty intersection is not enough (0x00040000 meets
    GENERIC_ALL without containing it).  [ACE.has_flag] and
    [ACCESS_ALLOWED_OBJECT_ACE.has_flag] follow the same rule. *)
Theorem has_priv_exact_match :
  (forall m p : Z, has_priv m p = true <-> Z.land m p = p)
  /\ (forall m p : Z, has_priv m p = true <->
        forall i : N, Z.testbit p (Z.of_N i) = true -> Z.testbit m (Z.of_N i) = true)
  /\ (Z.land 0x00040000 GENERIC_ALL <> 0 /\ has_priv 0x00040000 GENERIC_ALL = false)
  /\ (forall (a : ACE) (flag : Z),
        ACE_has_flag a flag = true <-> Z.land (AceFlags (ace a)) flag = flag)
  /\ (forall (o : ACCESS_ALLOWED_OBJECT_ACE_struct) (flag : Z),
        has_flag o flag = true <-> Z.land (Flags o) flag = flag).
Proof.
  repeat split; try (unfold has_priv, ACE_has_flag, has_flag; apply Z.eqb_eq);
    try (intros H; apply Z.eqb_eq; exact H).
  - intros H. apply land_eq_bits. apply Z.eqb_eq. exact H.
  - intros H. apply Z.eqb_eq. apply land_eq_bits. exact H.
  - vm_compute. discriminate.
Qed.

(** ** Empty input *)

(** C8: with an empty or absent descriptor buffer the evaluator returns the
    entry it was given and an empty relation list, whatever the entry and
    its class; nothing is raised. *)
Theorem parse_binary_acl_empty :
  forall (Entry : Type) (entry : Entry) (entrytype : string),
    parse_binary_acl entry entrytype None = Ok (entry, [])
    /\ parse_binary_acl entry entrytype (Some []) = Ok (entry, []).
Proof. intros. split; reflexivity. Qed.

(** ** Layout of an object ACE body *)

(** C6: in the body of an object ACE the ObjectType slot holds 16 bytes
    exactly when bit 0x1 of the 32-bit flags field is set and none
    otherwise, the InheritedObjectType slot holds 16 bytes exactly when bit
    0x2 is set and none otherwise, the slots start right after the mask and
    the flags, and the SID is decoded from the byte that follows them. *)
Theorem object_ace_layout :
  forall (buf : bytes) (p : nat) (o : ACCESS_ALLOWED_OBJECT_ACE_struct) (q : nat),
    read_ACCESS_ALLOWED_OBJECT_ACE buf p = Ok (o, q) ->
    let ot := if Z.testbit (Flags o) 0 then 16%nat else 0%nat in
    let iot := if Z.testbit (Flags o) 1 then 16%nat else 0%nat in
    Mask o = le_uint (slice p (p + 4)%nat buf)
    /\ Flags o = le_uint (slice (p + 4)%nat (p + 8)%nat buf)
    /\ ObjectType o = slice (p + 8)%nat (p + 8 + ot)%nat buf
    /\ length (ObjectType o) = ot
    /\ InheritedObjectType o = slice (p + 8 + ot)%nat (p + 8 + ot + iot)%nat buf
    /\ length (InheritedObjectType o) = iot
    /\ read_LDAP_SID buf (p + 8 + ot + iot)%nat = Ok (Sid o, q)
    /\ has_flag o ACE_OBJECT_TYPE_PRESENT = Z.testbit (Flags o) 0
    /\ has_flag o ACE_INHERITED_OBJECT_TYPE_PRESENT = Z.testbit (Flags o) 1.
Proof.
  intros buf p o q H. unfold read_ACCESS_ALLOWED_OBJECT_ACE in H.
  fields H.
  apply ret_Ok in H. destruct H as [-> ->].
  rewrite has_flag_bit0, has_flag_bit1.
  cbn [Mask Flags ObjectType InheritedObjectType Sid].
  destruct Hm as (Hq0 & _ & Hv).
  destruct Hm0 as (Hq1 & _ & Hv0).
  destruct Hm1 as (_ & Hl1 & Hv1 & Hq2).
  destruct Hm2 as (_ & Hl2 & Hv2 & Hq3).
  rewrite ObjectType_len_bit in *. rewrite InheritedObjectType_len_bit in *.
  set (ot := if Z.testbit v0 0 then 16%nat else 0%nat) in *.
  set (iot := if Z.testbit v0 1 then 16%nat else 0%nat) in *.
  unfold slice.
  replace (p + 4 - p)%nat with 4%nat by lia.
  replace (p + 8 - (p + 4))%nat with 4%nat by lia.
  replace (p + 8 + ot - (p + 8))%nat with ot by lia.
  replace (p + 8 + ot + iot - (p + 8 + ot))%nat with iot by lia.
  replace (p + 8)%nat with q1 by lia.
  replace (q1 + ot)%nat with q2 by lia.
  replace (q2 + iot)%nat with q3 by lia.
  rewrite <- Hq0.
  repeat split; auto.
  - rewrite Hv1, length_firstn, length_skipn. lia.
  - rewrite Hv2, length_firstn, length_skipn. lia.
Qed.

Lemma object_ace_layout_witness :
  read_ACCESS_ALLOWED_OBJECT_ACE Fixture.write_member_body 0%nat
    = Ok (Fixture.write_member_data, 52%nat)
  /\ length (ObjectType Fixture.write_member_data) = 16%nat
  /\ length (InheritedObjectType Fixture.write_member_data) = 0%nat
  /\ read_LDAP_SID Fixture.write_member_body 24%nat
       = Ok (Sid Fixture.write_member_data, 52%nat).
Proof.
  assert (H : read_ACCESS_ALLOWED_OBJECT_ACE Fixture.write_member_body 0%nat
              = Ok (Fixture.write_member_data, 52%nat))
    by (vm_compute; reflexivity).
  split; [exact H|].
  pose proof (object_ace_layout _ _ _ _ H) as L. cbv zeta in L.
  destruct L as (_ & _ & _ & L1 & _ & L2 & L3 & _).
  split; [exact L1 | split; [exact L2 | exact L3]].
Defined.

(** ** One ACE *)

Lemma generic_access_GENERIC_ALL mask :
  has_priv mask GENERIC_ALL = true -> generic_access mask = true.
Proof. intros H. unfold generic_access. rewrite H. reflexivity. Qed.

Lemma generic_access_GENERIC_WRITE mask :
  has_priv mask GENERIC_WRITE = true -> generic_access mask = true.
Proof. intros H. unfold generic_access. rewrite H. apply orb_true_r. Qed.

(** An object ACE whose generic right targets another object type adds
    nothing, whatever the inheritance tests say. *)
Lemma object_ace_relations_mismatch entrytype a o sid :
  generic_access (Mask o) = true ->
  object_type_mismatch entrytype o = true ->
  object_ace_relations entrytype a o sid = [].
Proof.
  intros Hg Hm. unfold object_ace_relations, generic_rights.
  rewrite Hg, Hm.
  destruct (inherit_only_template a); [reflexivity|].
  destruct (inherited_type_mismatch entrytype a o); reflexivity.
Qed.

(** C1 (as the code has it): an allow-object ACE (type 0x05) whose mask
    holds one of GENERIC_ALL, WRITE_DACL, WRITE_OWNER, GENERIC_WRITE and whose
    ObjectType is present without being the GUID of the entry's class is
    left altogether: it adds no relation, neither from the generic rights
    nor from the property-write or extended-right rules. *)
Theorem object_type_mismatch_skips_ace :
  forall (entrytype : string) (a : ACE) (o : ACCESS_ALLOWED_OBJECT_ACE_struct),
    AceType (ace a) = 5 ->
    acedata a = Some (ObjectAce o) ->
    generic_access (Mask o) = true ->
    object_type_mismatch entrytype o = true ->
    ace_relations entrytype a = Ok [].
Proof.
  intros entrytype a o Hty Hd Hg Hm.
  unfold ace_relations. rewrite Hty, Hd. cbn [negb andb Z.eqb Pos.eqb acedata_sid].
  destruct (str_in _ ignoresids); [reflexivity|].
  rewrite object_ace_relations_mismatch by assumption. reflexivity.
Qed.

Lemma object_type_mismatch_skips_ace_witness :
  generic_access (Mask Fixture.write_member_dacl_data) = true
  /\ object_type_mismatch "group" Fixture.write_member_dacl_data = true
  /\ ace_relations "group" (Fixture.object_ace 0 Fixture.write_member_dacl_data) = Ok [].
Proof.
  assert (Hg : generic_access (Mask Fixture.write_member_dacl_data) = true)
    by (vm_compute; reflexivity).
  assert (Hm : object_type_mismatch "group" Fixture.write_member_dacl_data = true)
    by (vm_compute; reflexivity).
  split; [exact Hg | split; [exact Hm|]].
  exact (object_type_mismatch_skips_ace "group"
           (Fixture.object_ace 0 Fixture.write_member_dacl_data)
           Fixture.write_member_dacl_data eq_refl eq_refl Hg Hm).
Defined.

(** C1, as stated, fails.  On a group entry take an object ACE for
    S-1-5-21-1-2-3-1104 with mask WRITE_DACL | ADS_RIGHT_DS_WRITE_PROP and
    ObjectType the WriteMember GUID: a generic right is set and the
    ObjectType is not the group class GUID.  The property-write rule alone
    would add WriteProperty/AddMember, yet the ACE adds nothing. *)
Lemma object_type_mismatch_counterexample :
  let o := Fixture.write_member_dacl_data in
  let a := Fixture.object_ace 0 o in
  generic_access (Mask o) = true
  /\ object_type_mismatch "group" o = true
  /\ property_write "group" o Fixture.helpdesk_str
       ++ extended_rights "group" o Fixture.helpdesk_str
     = [build_relation Fixture.helpdesk_str "WriteProperty" "AddMember"]
  /\ ace_relations "group" a = Ok []
  /\ ace_relations "group" a
     <> Ok (property_write "group" o Fixture.helpdesk_str
            ++ extended_rights "group" o Fixture.helpdesk_str).
Proof.
  cbv zeta. repeat split; try (vm_compute; reflexivity).
  vm_compute. discriminate.
Qed.

(** ** GENERIC_ALL *)

(** C4: an ACE whose mask holds GENERIC_ALL (every bit of it) adds exactly
    one relation, GenericAll for its SID, as soon as the loop looks at it
    at all, and nothing when it is skipped; this holds for plain ACEs (type
    0x00) and object ACEs (type 0x05) alike, so no other rule fires on it. *)
Theorem generic_all_exclusive :
  forall (entrytype : string) (a : ACE) (d : AceData),
    body_matches_type a = true ->
    acedata a = Some d ->
    has_priv (acedata_mask d) GENERIC_ALL = true ->
    ace_relations entrytype a
    = Ok (if skipped entrytype a then []
          else [build_relation (LdapSid_str (acedata_sid d)) "GenericAll" EmptyString]).
Proof.
  intros entrytype a d Hty Hd Hga.
  unfold ace_relations, skipped, body_matches_type in *.
  rewrite Hd in *. cbv zeta in *.
  destruct (AceType (ace a) =? 5) eqn:E5, (AceType (ace a) =? 0) eqn:E0;
    cbn [negb andb orb]; try reflexivity.
  - apply Z.eqb_eq in E5, E0. lia.
  - destruct (str_in _ ignoresids); [reflexivity|]. cbn [orb].
    destruct d as [pl|ob].
    + destruct (AceType (ace a) =? 1) eqn:E1; [|discriminate].
      apply Z.eqb_eq in E5, E1. lia.
    + cbn [acedata_mask acedata_sid] in *.
      unfold object_ace_relations, generic_rights.
      rewrite (generic_access_GENERIC_ALL _ Hga), Hga.
      destruct (inherit_only_template a); [reflexivity|].
      destruct (inherited_type_mismatch entrytype a ob); [reflexivity|].
      destruct (object_type_mismatch entrytype ob); reflexivity.
  - destruct (str_in _ ignoresids) eqn:Es.
    + destruct d; reflexivity.
    + unfold plain_ace_relations. rewrite Hga.
      destruct d; reflexivity.
Qed.

Lemma generic_all_exclusive_witness :
  body_matches_type
    (Fixture.object_ace 0
       (Fixture.object_data 0x000F01FF 0 [] [] Fixture.helpdesk_sid)) = true
  /\ has_priv 0x000F01FF GENERIC_ALL = true
  /\ ace_relations "user"
       (Fixture.object_ace 0
          (Fixture.object_data 0x000F01FF 0 [] [] Fixture.helpdesk_sid))
     = Ok [build_relation "S-1-5-21-1-2-3-1104" "GenericAll" EmptyString].
Proof.
  split; [reflexivity | split; [reflexivity|]].
  exact (generic_all_exclusive "user"
           (Fixture.object_ace 0
              (Fixture.object_data 0x000F01FF 0 [] [] Fixture.helpdesk_sid))
           (ObjectAce (Fixture.object_data 0x000F01FF 0 [] [] Fixture.helpdesk_sid))
           eq_refl eq_refl eq_refl).
Defined.

(** ** GENERIC_WRITE with WRITE_DACL and WRITE_OWNER *)

(** A plain ACE never stops after GenericWrite, whatever the class. *)
Lemma plain_ace_no_stop entrytype mask sid :
  has_priv mask GENERIC_ALL = false ->
  has_priv mask GENERIC_WRITE = true ->
  has_priv mask WRITE_DACL = true ->
  has_priv mask WRITE_OWNER = true ->
  plain_ace_relations entrytype mask sid
  = [build_relation sid "GenericWrite" EmptyString; build_relation sid "WriteOwner" EmptyString]
    ++ emit (str_in entrytype ["user"; "domain"]
             && has_priv mask ADS_RIGHT_DS_CONTROL_ACCESS)
            (build_relation sid "ExtendedRight" "All")
    ++ [build_relation sid "WriteDacl" EmptyString].
Proof.
  intros Hga Hgw Hwd Hwo. unfold plain_ace_relations.
  rewrite Hga, Hgw, Hwd, Hwo. reflexivity.
Qed.

Lemma property_write_domain o sid : property_write "domain" o sid = [].
Proof.
  unfold property_write.
  destruct (has_priv (Mask o) ADS_RIGHT_DS_WRITE_PROP); reflexivity.
Qed.

(** C2 (as the code has it): take an allow-object ACE (type 0x05) that the
    loop does not skip, with GENERIC_WRITE, WRITE_DACL and WRITE_OWNER all
    set in its mask and GENERIC_ALL not.  On a domain entry it adds
    GenericWrite, WriteDacl and WriteOwner, in that order, followed by
    whatever the extended-right rule adds; on an entry of any other class it
    adds GenericWrite alone, the loop body being left right after it. *)
Theorem generic_write_stop :
  forall (entrytype : string) (a : ACE) (o : ACCESS_ALLOWED_OBJECT_ACE_struct),
    AceType (ace a) = 5 ->
    acedata a = Some (ObjectAce o) ->
    skipped entrytype a = false ->
    has_priv (Mask o) GENERIC_ALL = false ->
    has_priv (Mask o) GENERIC_WRITE = true ->
    has_priv (Mask o) WRITE_DACL = true ->
    has_priv (Mask o) WRITE_OWNER = true ->
    let sid := LdapSid_str (Sid o) in
    ace_relations entrytype a
    = Ok (if String.eqb entrytype "domain"
          then [build_relation sid "GenericWrite" EmptyString;
                build_relation sid "WriteDacl" EmptyString;
                build_relation sid "WriteOwner" EmptyString]
               ++ extended_rights entrytype o sid
          else [build_relation sid "GenericWrite" EmptyString]).
Proof.
  intros entrytype a o Hty Hd Hsk Hga Hgw Hwd Hwo sid. subst sid.
  unfold skipped in Hsk. unfold ace_relations.
  rewrite Hty, Hd in *. cbn [negb andb orb Z.eqb Pos.eqb acedata_sid] in *.
  rewrite (generic_access_GENERIC_WRITE _ Hgw) in Hsk.
  destruct (str_in (LdapSid_str (Sid o)) ignoresids); [discriminate|].
  unfold object_ace_relations, generic_rights.
  rewrite (generic_access_GENERIC_WRITE _ Hgw), Hga, Hgw, Hwd, Hwo.
  destruct (inherit_only_template a); [discriminate|].
  destruct (inherited_type_mismatch entrytype a o); [discriminate|].
  destruct (object_type_mismatch entrytype o); [discriminate|].
  destruct (String.eqb_spec entrytype "domain") as [->|Hne].
  - cbn [negb andb emit app]. rewrite property_write_domain. reflexivity.
  - reflexivity.
Qed.

Lemma generic_write_stop_witness :
  skipped "domain"
    (Fixture.object_ace 0
       (Fixture.object_data Fixture.write_all 0 [] [] Fixture.helpdesk_sid)) = false
  /\ has_priv Fixture.write_all GENERIC_ALL = false
  /\ has_priv Fixture.write_all GENERIC_WRITE = true
  /\ has_priv Fixture.write_all WRITE_DACL = true
  /\ has_priv Fixture.write_all WRITE_OWNER = true
  /\ ace_relations "domain"
       (Fixture.object_ace 0
          (Fixture.object_data Fixture.write_all 0 [] [] Fixture.helpdesk_sid))
     = Ok [build_relation "S-1-5-21-1-2-3-1104" "GenericWrite" EmptyString;
           build_relation "S-1-5-21-1-2-3-1104" "WriteDacl" EmptyString;
           build_relation "S-1-5-21-1-2-3-1104" "WriteOwner" EmptyString].
Proof.
  do 5 (split; [reflexivity|]).
  exact (generic_write_stop "domain"
           (Fixture.object_ace 0
              (Fixture.object_data Fixture.write_all 0 [] [] Fixture.helpdesk_sid))
           (Fixture.object_data Fixture.write_all 0 [] [] Fixture.helpdesk_sid)
           eq_refl eq_refl eq_refl eq_refl eq_refl eq_refl eq_refl).
Defined.

(** C2, as stated, fails on a plain ACE.  An ACE of type 0x00 granting
    GENERIC_WRITE | WRITE_DACL | WRITE_OWNER (0xE0028, which does not hold
    GENERIC_ALL) to S-1-5-21-1-2-3-1104 on a user entry adds three
    relations, not GenericWrite alone. *)
Lemma generic_write_stop_counterexample :
  let a := Fixture.plain_ace Fixture.write_all Fixture.helpdesk_sid in
  has_priv Fixture.write_all GENERIC_WRITE = true
  /\ has_priv Fixture.write_all WRITE_DACL = true
  /\ has_priv Fixture.write_all WRITE_OWNER = true
  /\ has_priv Fixture.write_all GENERIC_ALL = false
  /\ skipped "user" a = false
  /\ ace_relations "user" a
     = Ok [build_relation Fixture.helpdesk_str "GenericWrite" EmptyString;
           build_relation Fixture.helpdesk_str "WriteOwner" EmptyString;
           build_relation Fixture.helpdesk_str "WriteDacl" EmptyString]
  /\ ace_relations "user" a
     <> Ok [build_relation Fixture.helpdesk_str "GenericWrite" EmptyString].
Proof.
  cbv zeta. do 6 (split; [vm_compute; reflexivity|]).
  vm_compute. discriminate.
Qed.

(** ** The owner *)

(** C3, at the input the code gets wrong: a descriptor whose owner offset
    is 0 (no owner) and whose DACL is empty.  The loop over the DACL adds
    nothing, yet the result holds an Owner relation, named after the
    [b''] that [owner_sid] was initialised to; the same happens for every
    decoded descriptor without an owner. *)
Theorem absent_owner_still_emitted :
  parse_binary_acl tt "user" (Some Fixture.no_owner)
    = Ok (tt, [build_relation "b''" "Owner" EmptyString])
  /\ (forall sd : SecurityDescriptor,
        owner_sid sd = None ->
        owner_relation sd = [build_relation "b''" "Owner" EmptyString]).
Proof.
  split.
  - vm_compute. reflexivity.
  - intros sd H. unfold owner_relation. rewrite H. reflexivity.
Qed.

(** With an owner, the Owner relation is there exactly when the owner's
    string form is not ignored. *)
Lemma present_owner_relation sd s :
  owner_sid sd = Some s ->
  owner_relation sd
  = if str_in (LdapSid_str s) ignoresids then []
    else [build_relation (LdapSid_str s) "Owner" EmptyString].
Proof. intros H. unfold owner_relation. rewrite H. reflexivity. Qed.

(** ** Ignored SIDs *)

Lemma emit_named c s rn at_ : Forall (named s) (emit c (build_relation s rn at_)).
Proof. destruct c; simpl; constructor; [reflexivity | constructor]. Qed.

#[local] Hint Resolve emit_named : core.

Ltac named_app :=
  repeat (apply Forall_app; split); auto;
  try (constructor; [reflexivity | constructor]).

Lemma generic_rights_named et o s : Forall (named s) (fst (generic_rights et o s)).
Proof.
  unfold generic_rights.
  destruct (generic_access (Mask o)); [|constructor].
  destruct (object_type_mismatch et o); [constructor|].
  destruct (has_priv (Mask o) GENERIC_ALL); [simpl; named_app|].
  destruct (has_priv (Mask o) GENERIC_WRITE && negb (et =? "domain")%string);
    simpl; named_app.
Qed.

Lemma property_write_named et o s : Forall (named s) (property_write et o s).
Proof.
  unfold property_write.
  destruct (has_priv (Mask o) ADS_RIGHT_DS_WRITE_PROP); [named_app | constructor].
Qed.

Lemma extended_rights_named et o s : Forall (named s) (extended_rights et o s).
Proof.
  unfold extended_rights.
  destruct (has_priv (Mask o) ADS_RIGHT_DS_CONTROL_ACCESS); [named_app | constructor].
Qed.

Lemma object_ace_relations_named et a o s :
  Forall (named s) (object_ace_relations et a o s).
Proof.
  unfold object_ace_relations.
  destruct (inherit_only_template a); [constructor|].
  destruct (inherited_type_mismatch et a o); [constructor|].
  pose proof (generic_rights_named et o s) as G.
  destruct (generic_rights et o s) as [rels stop]. simpl in G.
  destruct stop; [exact G|].
  apply Forall_app; split; [exact G|].
  apply Forall_app; split;
    [apply property_write_named | apply extended_rights_named].
Qed.

Lemma plain_ace_relations_named et mask s :
  Forall (named s) (plain_ace_relations et mask s).
Proof.
  unfold plain_ace_relations.
  destruct (has_priv mask GENERIC_ALL); named_app.
Qed.

Lemma str_in_ignoresids_false s :
  str_in s ignoresids = false -> s <> "S-1-3-0" /\ s <> "S-1-5-18".
Proof.
  unfold str_in, ignoresids. simpl. intros H.
  apply orb_false_iff in H. destruct H as [H1 H2].
  apply orb_false_iff in H2. destruct H2 as [H2 _].
  split; intros ->; simpl in *; discriminate.
Qed.

Lemma named_not_ignored s l :
  str_in s ignoresids = false -> Forall (named s) l -> Forall not_ignored l.
Proof.
  intros Hs H. apply str_in_ignoresids_false in Hs.
  eapply Forall_impl; [|exact H].
  intros r Hr. unfold named in Hr. unfold not_ignored. rewrite Hr. exact Hs.
Qed.

Lemma ace_relations_not_ignored et a rels :
  ace_relations et a = Ok rels -> Forall not_ignored rels.
Proof.
  unfold ace_relations.
  destruct (negb (AceType (ace a) =? 5) && negb (AceType (ace a) =? 0)).
  { intros H. injection H as <-. constructor. }
  destruct (acedata a) as [d|]; [|discriminate].
  destruct (str_in (LdapSid_str (acedata_sid d)) ignoresids) eqn:Es.
  { intros H. injection H as <-. constructor. }
  destruct (AceType (ace a) =? 5).
  - destruct d as [pl|ob]; [discriminate|].
    intros H. injection H as <-.
    eapply named_not_ignored; [exact Es | apply object_ace_relations_named].
  - intros H. injection H as <-.
    eapply named_not_ignored; [exact Es | apply plain_ace_relations_named].
Qed.

Lemma dacl_relations_not_ignored et l rels :
  dacl_relations et l = Ok rels -> Forall not_ignored rels.
Proof.
  revert rels. induction l as [|a rest IH]; simpl; intros rels H.
  - injection H as <-. constructor.
  - destruct (ace_relations et a) as [here|] eqn:Ea; [|discriminate].
    destruct (dacl_relations et rest) as [later|]; [|discriminate].
    injection H as <-.
    apply Forall_app; split.
    + eapply ace_relations_not_ignored; exact Ea.
    + apply IH. reflexivity.
Qed.

Lemma owner_relation_not_ignored sd : Forall not_ignored (owner_relation sd).
Proof.
  unfold owner_relation.
  destruct (str_in (owner_str (owner_sid sd)) ignoresids) eqn:Es; [constructor|].
  constructor; [|constructor].
  apply str_in_ignoresids_false in Es. exact Es.
Qed.

Lemma evaluate_not_ignored et sd rels :
  evaluate et sd = Ok rels -> Forall not_ignored rels.
Proof.
  unfold evaluate. destruct (dacl sd) as [d|]; [|discriminate].
  destruct (dacl_relations et (aces d)) as [l|] eqn:E; [|discriminate].
  intros H. injection H as <-.
  apply Forall_app; split.
  - apply owner_relation_not_ignored.
  - eapply dacl_relations_not_ignored; exact E.
Qed.

(** C5: whatever the descriptor and the entry class, no relation of the
    list that is returned names S-1-3-0 or S-1-5-18, be it as the owner or
    as the subject of an ACE. *)
Theorem no_ignored_sid :
  forall (Entry : Type) (entry entry' : Entry) (entrytype : string)
         (acl : option bytes) (relations : list Relation),
    parse_binary_acl entry entrytype acl = Ok (entry', relations) ->
    Forall (fun r => sid r <> "S-1-3-0" /\ sid r <> "S-1-5-18") relations.
Proof.
  intros Entry entry entry' entrytype acl relations H.
  change (Forall not_ignored relations).
  unfold parse_binary_acl in H.
  destruct acl as [[|b data]|].
  - injection H as _ <-. constructor.
  - destruct (run SecurityDescriptor_init (b :: data)) as [sd|]; [|discriminate].
    destruct (evaluate entrytype sd) as [rels|] eqn:E; [|discriminate].
    injection H as _ <-. eapply evaluate_not_ignored; exact E.
  - injection H as _ <-. constructor.
Qed.

Lemma no_ignored_sid_witness :
  parse_binary_acl tt "user" (Some Fixture.ignored_subjects)
    = Ok (tt, [build_relation "S-1-5-21-1-2-3-1104" "WriteDacl" EmptyString])
  /\ Forall (fun r => sid r <> "S-1-3-0" /\ sid r <> "S-1-5-18")
       [build_relation "S-1-5-21-1-2-3-1104" "WriteDacl" EmptyString].
Proof.
  assert (H : parse_binary_acl tt "user" (Some Fixture.ignored_subjects)
              = Ok (tt, [build_relation "S-1-5-21-1-2-3-1104" "WriteDacl" EmptyString]))
    by (vm_compute; reflexivity).
  split; [exact H|].
  exact (no_ignored_sid unit tt tt "user" (Some Fixture.ignored_subjects) _ H).
Defined.

(** ** Decoding the descriptor *)

(** What a decoded descriptor says about its header and its DACL. *)
Lemma SecurityDescriptor_init_Ok data sd q :
  SecurityDescriptor_init data 0%nat = Ok (sd, q) ->
  exists p p3 q3,
    read_SECURITY_DESCRIPTOR data 0%nat = Ok (descriptor sd, p)
    /\ at_offset (OffsetDacl (descriptor sd)) ACL_init data p3 = Ok (dacl sd, q3).
Proof.
  intros H. unfold SecurityDescriptor_init in H. fields H.
  apply ret_Ok in H. destruct H as [-> ->]. simpl.
  exists q0, q3, q4. split; assumption.
Qed.

Lemma at_offset_zero {A} (m : reader A) buf p r q :
  at_offset 0 m buf p = Ok (r, q) -> r = None.
Proof. unfold at_offset. simpl. intros H. apply ret_Ok in H. tauto. Qed.

Lemma at_offset_nonzero {A} off (m : reader A) buf p r q :
  off <> 0 ->
  at_offset off m buf p = Ok (r, q) ->
  exists a, r = Some a /\ m buf (Z.to_nat off) = Ok (a, q).
Proof.
  intros Hoff. unfold at_offset.
  destruct (Z.eqb_spec off 0) as [E|_]; [contradiction|].
  intros H. fields H. apply ret_Ok in H. destruct H as [-> ->].
  unfold seek in Hm. injection Hm as _ <-.
  exists v0. split; [reflexivity | assumption].
Qed.

Lemma parse_binary_acl_nonempty {Entry} (entry : Entry) et data :
  data <> [] ->
  parse_binary_acl entry et (Some data)
  = match run SecurityDescriptor_init data with
    | Raise e => Raise e
    | Ok sd => match evaluate et sd with
               | Raise e => Raise e
               | Ok relations => Ok (entry, relations)
               end
    end.
Proof. intros H. destruct data; [contradiction | reflexivity]. Qed.

(** ** A descriptor without a DACL *)

(** C10: a non-empty buffer whose header has OffsetDacl 0 never yields a
    relation list: the call raises.  When the rest of the descriptor decodes,
    the DACL is the [b''] it was initialised to and the loop over its ACEs
    raises [AttributeError]. *)
Theorem absent_dacl_raises :
  forall (Entry : Type) (entry : Entry) (entrytype : string)
         (data : bytes) (d : SECURITY_DESCRIPTOR) (p : nat),
    data <> [] ->
    read_SECURITY_DESCRIPTOR data 0%nat = Ok (d, p) ->
    OffsetDacl d = 0 ->
    (exists e, parse_binary_acl entry entrytype (Some data) = Raise e)
    /\ (forall sd, run SecurityDescriptor_init data = Ok sd ->
          dacl sd = None
          /\ parse_binary_acl entry entrytype (Some data) = Raise AttributeError).
Proof.
  intros Entry entry entrytype data d p Hne Hh Hoff.
  rewrite parse_binary_acl_nonempty by assumption.
  assert (Hd : forall sd, run SecurityDescriptor_init data = Ok sd -> dacl sd = None).
  { intros sd Hr. unfold run in Hr.
    destruct (SecurityDescriptor_init data 0%nat) as [[sd' q]|] eqn:E; [|discriminate].
    injection Hr as ->.
    apply SecurityDescriptor_init_Ok in E. destruct E as (p' & p3 & q3 & Hh' & Hdl).
    rewrite Hh in Hh'. injection Hh' as Hdesc _. rewrite <- Hdesc, Hoff in Hdl.
    eapply at_offset_zero; exact Hdl. }
  split.
  - destruct (run SecurityDescriptor_init data) as [sd|e] eqn:E.
    + exists AttributeError. unfold evaluate. rewrite (Hd sd eq_refl). reflexivity.
    + exists e. reflexivity.
  - intros sd Hr. split; [apply Hd; exact Hr|].
    rewrite Hr. unfold evaluate. rewrite (Hd sd Hr). reflexivity.
Qed.

Lemma absent_dacl_raises_witness :
  Fixture.no_dacl <> []
  /\ OffsetDacl {| sd_Revision := 1; sd_Sbz1 := 0; Control := 0x8004;
                   OffsetOwner := 20; OffsetGroup := 0;
                   OffsetSacl := 0; OffsetDacl := 0 |} = 0
  /\ parse_binary_acl tt "user" (Some Fixture.no_dacl) = Raise AttributeError.
Proof.
  assert (Hne : Fixture.no_dacl <> []) by (vm_compute; discriminate).
  split; [exact Hne | split; [reflexivity|]].
  refine (proj2 (proj2 (absent_dacl_raises unit tt "user" Fixture.no_dacl
                          {| sd_Revision := 1; sd_Sbz1 := 0; Control := 0x8004;
                             OffsetOwner := 20; OffsetGroup := 0;
                             OffsetSacl := 0; OffsetDacl := 0 |}
                          20%nat Hne _ eq_refl) _ _)).
  - vm_compute. reflexivity.
  - vm_compute. reflexivity.
Defined.

(** ** ACEs that run past the tail *)

Lemma read_ACE_Ok tail p a q :
  read_ACE tail p = Ok (a, q) ->
  (p + 4 <= length tail)%nat
  /\ AceSize a = AceSize_at tail p
  /\ 4 <= AceSize a
  /\ q = (p + Z.to_nat (AceSize a))%nat
  /\ (q <= length tail)%nat.
Proof.
  intros H. unfold read_ACE in H. fields H.
  apply ret_Ok in H. destruct H as [-> ->]. cbn [AceSize].
  destruct Hm as (-> & _ & _).
  destruct Hm0 as (-> & _ & _).
  destruct Hm1 as (-> & Hl & Hv).
  destruct Hm2 as (Hn & Hl2 & _ & ->).
  unfold AceSize_at.
  replace (p + 1 + 1)%nat with (p + 2)%nat in * by lia.
  split; [lia | split; [exact Hv | split; [lia | split; lia]]].
Qed.

Lemma ACE_init_Ok tail p a q :
  ACE_init tail p = Ok (a, q) ->
  (p + 4 <= length tail)%nat
  /\ AceSize (ace a) = AceSize_at tail p
  /\ 4 <= AceSize (ace a)
  /\ q = (p + Z.to_nat (AceSize (ace a)))%nat
  /\ (q <= length tail)%nat.
Proof.
  intros H. unfold ACE_init in H.
  apply bind_Ok in H. destruct H as (s & q1 & Hs & H).
  apply read_ACE_Ok in Hs. cbv zeta in H.
  assert (E : ace a = s /\ q = q1).
  { repeat match type of H with
           | (if ?c then _ else _) _ _ = _ => destruct c
           end;
      fields H; try (unfold from_buffer in Hm;
                     match type of Hm with
                     | match ?r with _ => _ end = _ => destruct r; [|discriminate]
                     end; injection Hm as _ <-);
      apply ret_Ok in H; destruct H as [-> ->]; split; reflexivity. }
  destruct E as [-> ->]. exact Hs.
Qed.

(** Every ACE that comes out of the decoder has the body of its type. *)
Lemma ACE_init_body_matches_type tail p a q :
  ACE_init tail p = Ok (a, q) -> body_matches_type a = true.
Proof.
  intros H. unfold ACE_init in H.
  apply bind_Ok in H. destruct H as (s & q1 & _ & H). cbv zeta in H.
  unfold body_matches_type.
  destruct (AceType s =? 0) eqn:E0; [|destruct (AceType s =? 5) eqn:E5;
    [|destruct (AceType s =? 1) eqn:E1; [|destruct (AceType s =? 6) eqn:E6]]];
    fields H; apply ret_Ok in H; destruct H as [-> _]; cbn [ace acedata];
    rewrite ?E0, ?E1, ?E5, ?E6; reflexivity.
Qed.

Lemma read_aces_body_matches_type count tail p l q :
  read_aces count tail p = Ok (l, q) ->
  Forall (fun a => body_matches_type a = true) l.
Proof.
  revert p l q. induction count as [|n IH]; intros p l q H; cbn [read_aces] in H.
  - apply ret_Ok in H. destruct H as [-> _]. constructor.
  - fields H. apply ret_Ok in H. destruct H as [-> _].
    constructor.
    + eapply ACE_init_body_matches_type; exact Hm.
    + eapply IH; exact Hm0.
Qed.

(** Decoding stops with [MalformedDescriptor] as soon as the ACEs that the
    count announces leave the tail. *)
Lemma overruns_fail tail count p :
  overruns tail count p -> read_aces count tail p = Raise MalformedDescriptor.
Proof.
  induction 1 as [count p Hh | count p Hh Hb | count p Hs Hlater IH].
  - cbn [read_aces]. unfold bind at 1.
    destruct (ACE_init tail p) as [[a q]|e] eqn:E.
    + apply ACE_init_Ok in E. lia.
    + f_equal. eapply only_malformed_ACE_init; exact E.
  - cbn [read_aces]. unfold bind at 1.
    destruct (ACE_init tail p) as [[a q]|e] eqn:E.
    + apply ACE_init_Ok in E. destruct E as (_ & Hsz & H4 & -> & Hq).
      rewrite Hsz in *. lia.
    + f_equal. eapply only_malformed_ACE_init; exact E.
  - cbn [read_aces]. unfold bind at 1.
    destruct (ACE_init tail p) as [[a q]|e] eqn:E.
    + apply ACE_init_Ok in E. destruct E as (_ & Hsz & H4 & -> & Hq).
      rewrite Hsz. unfold bind at 1. rewrite IH. reflexivity.
    + f_equal. eapply only_malformed_ACE_init; exact E.
Qed.

(** C9: when the DACL announces more ACEs than its tail ([AclSize - 8]
    bytes) holds, so that taking them by their declared sizes leaves the
    tail, the call fails with [MalformedDescriptor] and no relation list,
    not even a partial one, comes back; the tail that was decoded lies
    inside the buffer, as does every slice the reader hands out. *)
Theorem short_dacl_malformed :
  forall (Entry : Type) (entry : Entry) (entrytype : string)
         (data : bytes) (d : SECURITY_DESCRIPTOR) (p : nat)
         (h : ACL_struct) (q : nat),
    read_SECURITY_DESCRIPTOR data 0%nat = Ok (d, p) ->
    OffsetDacl d <> 0 ->
    read_ACL data (Z.to_nat (OffsetDacl d)) = Ok (h, q) ->
    overruns (acl_Data h) (Z.to_nat (AceCount h)) 0%nat ->
    parse_binary_acl entry entrytype (Some data) = Raise MalformedDescriptor
    /\ (q <= length data)%nat
    /\ acl_Data h = slice (Z.to_nat (OffsetDacl d) + 8)%nat q data
    /\ (forall n buf s bs t,
          read n buf s = Ok (bs, t) ->
          (s <= t <= length buf)%nat /\ bs = slice s t buf).
Proof.
  intros Entry entry entrytype data d p h q Hh Hoff Hacl Hover.
  split; [|split; [|split]].
  - assert (Hne : data <> []).
    { intros ->. vm_compute in Hh. discriminate. }
    rewrite parse_binary_acl_nonempty by assumption.
    unfold run.
    destruct (SecurityDescriptor_init data 0%nat) as [[sd q']|e] eqn:E.
    + exfalso.
      apply SecurityDescriptor_init_Ok in E. destruct E as (p' & p3 & q3 & Hh' & Hdl).
      rewrite Hh in Hh'. injection Hh' as Hdesc _. rewrite <- Hdesc in Hdl.
      apply at_offset_nonzero in Hdl; [|assumption].
      destruct Hdl as (a & _ & Ha).
      unfold ACL_init in Ha. fields Ha.
      rewrite Hacl in Hm. injection Hm as <- <-.
      unfold from_buffer, run in Hm0.
      rewrite (overruns_fail _ _ _ Hover) in Hm0. discriminate.
    + f_equal. eapply only_malformed_SecurityDescriptor_init; exact E.
  - unfold read_ACL in Hacl. fields Hacl.
    apply ret_Ok in Hacl. destruct Hacl as [_ ->]. lia.
  - unfold read_ACL in Hacl. fields Hacl.
    apply ret_Ok in Hacl. destruct Hacl as [-> ->]. cbn [acl_Data].
    destruct Hm as (-> & _ & _). destruct Hm0 as (-> & _ & _).
    destruct Hm1 as (-> & _ & _). destruct Hm2 as (-> & _ & _).
    destruct Hm3 as (-> & _ & _). destruct Hm4 as (_ & _ & -> & ->).
    unfold slice. f_equal; [lia | f_equal; lia].
  - intros n buf s bs t Hr. apply read_in_bounds in Hr. tauto.
Qed.

Lemma short_dacl_malformed_witness :
  OffsetDacl {| sd_Revision := 1; sd_Sbz1 := 0; Control := 0x8004;
                OffsetOwner := 20; OffsetGroup := 0;
                OffsetSacl := 0; OffsetDacl := 48 |} <> 0
  /\ overruns Fixture.one_ace_tail 2 0
  /\ parse_binary_acl tt "user" (Some Fixture.short_dacl) = Raise MalformedDescriptor.
Proof.
  assert (Hoff : OffsetDacl {| sd_Revision := 1; sd_Sbz1 := 0; Control := 0x8004;
                               OffsetOwner := 20; OffsetGroup := 0;
                               OffsetSacl := 0; OffsetDacl := 48 |} <> 0)
    by (simpl; discriminate).
  assert (Hover : overruns Fixture.one_ace_tail 2 0).
  { apply overrun_later; [vm_compute; discriminate|].
    apply overrun_header. vm_compute. lia. }
  split; [exact Hoff | split; [exact Hover|]].
  refine (proj1 (short_dacl_malformed unit tt "user" Fixture.short_dacl
                   {| sd_Revision := 1; sd_Sbz1 := 0; Control := 0x8004;
                      OffsetOwner := 20; OffsetGroup := 0;
                      OffsetSacl := 0; OffsetDacl := 48 |}
                   20%nat
                   {| AclRevision := 2; acl_Sbz1 := 0; AclSize := 44;
                      AceCount := 2; Sbz2 := 0;
                      acl_Data := Fixture.one_ace_tail |}
                   92%nat _ Hoff _ Hover)).
  - vm_compute. reflexivity.
  - vm_compute. reflexivity.
Defined.

(** * Further properties *)

(** ** The access mask as a set of bits *)

Lemma has_priv_bits (m p : Z) :
  has_priv m p = true <->
  forall n, 0 <= n -> Z.testbit p n = true -> Z.testbit m n = true.
Proof.
  unfold has_priv. rewrite Z.eqb_eq. split.
  - intros H n _ Hp. rewrite <- H in Hp. rewrite Z.land_spec in Hp.
    apply andb_true_iff in Hp. tauto.
  - intros H. apply Z.bits_inj'. intros n Hn. rewrite Z.land_spec.
    destruct (Z.testbit p n) eqn:E; [|apply andb_false_r].
    rewrite (H n Hn E). reflexivity.
Qed.

Lemma land_zero_bits (m p : Z) :
  Z.land m p = 0 <->
  forall n, 0 <= n -> Z.testbit p n = true -> Z.testbit m n = false.
Proof.
  split.
  - intros H n Hn Hp.
    assert (Hb : Z.testbit (Z.land m p) n = false) by (rewrite H; apply Z.bits_0).
    rewrite Z.land_spec, Hp, andb_true_r in Hb. exact Hb.
  - intros H. apply Z.bits_inj'. intros n Hn.
    rewrite Z.land_spec, Z.bits_0.
    destruct (Z.testbit p n) eqn:E; [|apply andb_false_r].
    rewrite (H n Hn E). reflexivity.
Qed.

(** X1: a mask that holds a right holds every right whose bits lie within
    it. *)
Theorem has_priv_contained :
  forall m p q : Z,
    has_priv m p = true -> Z.land p q = q -> has_priv m q = true.
Proof.
  intros m p q Hp Hq. apply has_priv_bits. intros n Hn Hqn.
  apply (proj1 (has_priv_bits m p) Hp n Hn).
  apply (proj1 (has_priv_bits p q)); [|assumption|assumption].
  unfold has_priv. apply Z.eqb_eq. exact Hq.
Qed.

Lemma has_priv_contained_witness :
  has_priv 0x000F01FF GENERIC_ALL = true
  /\ Z.land GENERIC_ALL GENERIC_WRITE = GENERIC_WRITE
  /\ has_priv 0x000F01FF GENERIC_WRITE = true.
Proof.
  split; [reflexivity | split; [reflexivity|]].
  exact (has_priv_contained 0x000F01FF GENERIC_ALL GENERIC_WRITE eq_refl eq_refl).
Defined.

(** X2: testing for the union of two rights is testing for both. *)
Theorem has_priv_union :
  forall m p q : Z,
    has_priv m (Z.lor p q) = has_priv m p && has_priv m q.
Proof.
  intros m p q. apply eq_true_iff_eq.
  rewrite andb_true_iff, !has_priv_bits. split.
  - intros H. split; intros n Hn Hb; apply (H n Hn);
      rewrite Z.lor_spec, Hb; [reflexivity | apply orb_true_r].
  - intros [Hp Hq] n Hn Hb. rewrite Z.lor_spec in Hb.
    apply orb_true_iff in Hb. destruct Hb as [Hb|Hb]; [apply Hp | apply Hq]; assumption.
Qed.

(** X3: [set_priv] grants the right, keeps every right that was held, and
    changes nothing when applied a second time. *)
Theorem set_priv_grants :
  forall m p : Z,
    has_priv (set_priv m p) p = true
    /\ (forall q, has_priv m q = true -> has_priv (set_priv m p) q = true)
    /\ set_priv (set_priv m p) p = set_priv m p.
Proof.
  intros m p. unfold set_priv. repeat split.
  - apply has_priv_bits. intros n Hn Hb. rewrite Z.lor_spec, Hb. apply orb_true_r.
  - intros q Hq. apply has_priv_bits. intros n Hn Hb.
    rewrite Z.lor_spec, (proj1 (has_priv_bits m q) Hq n Hn Hb). reflexivity.
  - rewrite <- Z.lor_assoc, Z.lor_diag. reflexivity.
Qed.

(** X4: [remove_priv] on a right that is held clears all of its bits and
    leaves the test for any right that shares no bit with it as it was. *)
Theorem remove_priv_held :
  forall m p : Z,
    has_priv m p = true ->
    Z.land (remove_priv m p) p = 0
    /\ (forall q, Z.land p q = 0 ->
                  has_priv (remove_priv m p) q = has_priv m q).
Proof.
  intros m p Hp. unfold remove_priv. split.
  - apply land_zero_bits. intros n Hn Hb.
    rewrite Z.lxor_spec, Hb, (proj1 (has_priv_bits m p) Hp n Hn Hb). reflexivity.
  - intros q Hq. apply eq_true_iff_eq. rewrite !has_priv_bits.
    split; intros H n Hn Hb; specialize (H n Hn Hb);
      pose proof (proj1 (land_zero_bits p q) Hq n Hn Hb) as Hpn;
      rewrite Z.lxor_spec, Hpn, xorb_false_r in *; exact H.
Qed.

Lemma remove_priv_held_witness :
  has_priv 0x000C0000 WRITE_DACL = true
  /\ Z.land (remove_priv 0x000C0000 WRITE_DACL) WRITE_DACL = 0.
Proof.
  split; [reflexivity|].
  exact (proj1 (remove_priv_held 0x000C0000 WRITE_DACL eq_refl)).
Defined.

(** X5: [remove_priv] is an exclusive or: on a right of which the mask
    holds no bit it grants the right instead of removing anything, and
    applying it twice gives the mask back. *)
Theorem remove_priv_toggles :
  forall m p : Z,
    (Z.land m p = 0 ->
       remove_priv m p = set_priv m p /\ has_priv (remove_priv m p) p = true)
    /\ remove_priv (remove_priv m p) p = m.
Proof.
  intros m p. unfold remove_priv, set_priv. split.
  - intros H.
    assert (E : Z.lxor m p = Z.lor m p).
    { apply Z.bits_inj'. intros n Hn. rewrite Z.lxor_spec, Z.lor_spec.
      destruct (Z.testbit p n) eqn:Ep.
      - rewrite (proj1 (land_zero_bits m p) H n Hn Ep). reflexivity.
      - rewrite xorb_false_r, orb_false_r. reflexivity. }
    split; [exact E|]. rewrite E.
    apply has_priv_bits. intros n Hn Hb. rewrite Z.lor_spec, Hb. apply orb_true_r.
  - rewrite Z.lxor_assoc, Z.lxor_nilpotent, Z.lxor_0_r. reflexivity.
Qed.

(** ** Object classes and GUID tests *)

Lemma assoc_None {V} (key : string) (table : list (string * V)) :
  assoc key table = None <-> ~ In key (map fst table).
Proof.
  induction table as [|[k v] rest IH]; cbn [assoc map fst In]; [tauto|].
  destruct (String.eqb_spec key k) as [->|Hne].
  - split; [discriminate | tauto].
  - rewrite IH. split; [intros H [E|E]; [congruence | tauto] | tauto].
Qed.

Lemma assoc_Some {V} (key : string) (v : V) (table : list (string * V)) :
  NoDup (map fst table) ->
  (assoc key table = Some v <-> In (key, v) table).
Proof.
  induction table as [|[k w] rest IH]; cbn [assoc map fst In]; intros Hnd.
  - split; [discriminate | tauto].
  - inversion Hnd as [|x xs Hk Hrest]; subst.
    destruct (String.eqb_spec key k) as [->|Hne].
    + split.
      * intros H. injection H as ->. left. reflexivity.
      * intros [E|E]; [injection E as ->; reflexivity|].
        exfalso. apply Hk. apply (in_map fst) in E. exact E.
    + rewrite (IH Hrest). split; [tauto|].
      intros [E|E]; [injection E as E1 E2; congruence | exact E].
Qed.

Lemma OBJECTTYPE_GUID_MAP_keys : NoDup (map fst OBJECTTYPE_GUID_MAP).
Proof.
  unfold OBJECTTYPE_GUID_MAP. cbn [map fst].
  repeat (constructor; [cbn [In]; intuition discriminate|]). constructor.
Qed.

(** X6: [ace_applies] holds exactly for the pairs of the class table; a
    class that is not a key of the table (the [KeyError] branch) matches no
    GUID at all. *)
Theorem ace_applies_table :
  forall ace_guid object_class : string,
    (ace_applies ace_guid object_class = true
     <-> In (object_class, ace_guid) OBJECTTYPE_GUID_MAP)
    /\ (~ In object_class (map fst OBJECTTYPE_GUID_MAP) ->
        ace_applies ace_guid object_class = false).
Proof.
  intros g c. unfold ace_applies.
  destruct (assoc c OBJECTTYPE_GUID_MAP) as [g0|] eqn:E.
  - apply (assoc_Some _ _ _ OBJECTTYPE_GUID_MAP_keys) in E. split.
    + rewrite String.eqb_eq. split.
      * intros ->. exact E.
      * intros H.
        apply (assoc_Some _ _ _ OBJECTTYPE_GUID_MAP_keys) in H, E. congruence.
    + intros H. exfalso. apply H. apply (in_map fst) in E. exact E.
  - split; [|reflexivity]. split; [discriminate|].
    intros H. apply assoc_None in E. exfalso. apply E.
    apply (in_map fst) in H. exact H.
Qed.

Lemma bytes_eqb_eq (a b : bytes) : bytes_eqb a b = true <-> a = b.
Proof.
  revert b. induction a as [|x a IH]; intros [|y b]; simpl;
    try (split; [discriminate | discriminate]); try tauto.
  rewrite andb_true_iff, IH. split.
  - intros [Hx ->]. apply Byte.byte_dec_bl in Hx. subst. reflexivity.
  - intros H. injection H as -> ->. split; [apply Byte.byte_dec_lb|]; reflexivity.
Qed.

(** X7: a property can be written, and an extended right is held, exactly
    when the corresponding bit is in the mask and the ACE carries either
    no ObjectType or the very GUID that is asked for. *)
Theorem guid_tests :
  forall (o : ACCESS_ALLOWED_OBJECT_ACE_struct) (guid : bytes),
    (can_write_property o guid = true
     <-> has_priv (Mask o) ADS_RIGHT_DS_WRITE_PROP = true
         /\ (has_flag o ACE_OBJECT_TYPE_PRESENT = false \/ ObjectType o = guid))
    /\ (has_extended_right o guid = true
        <-> has_priv (Mask o) ADS_RIGHT_DS_CONTROL_ACCESS = true
            /\ (has_flag o ACE_OBJECT_TYPE_PRESENT = false \/ ObjectType o = guid)).
Proof.
  intros o guid. unfold can_write_property, has_extended_right.
  split.
  - destruct (has_priv (Mask o) ADS_RIGHT_DS_WRITE_PROP);
      destruct (has_flag o ACE_OBJECT_TYPE_PRESENT); cbn [negb];
      rewrite ?bytes_eqb_eq; intuition discriminate.
  - destruct (has_priv (Mask o) ADS_RIGHT_DS_CONTROL_ACCESS);
      destruct (has_flag o ACE_OBJECT_TYPE_PRESENT); cbn [negb];
      rewrite ?bytes_eqb_eq; intuition discriminate.
Qed.

(** ** The loop over the DACL *)

(** X8: the relations of a DACL are those of its ACEs, one after the other;
    an ACE that raises stops the whole loop, and the first one to do so
    decides the exception. *)
Theorem dacl_relations_app :
  forall (entrytype : string) (l1 l2 : list ACE),
    dacl_relations entrytype (l1 ++ l2)
    = match dacl_relations entrytype l1 with
      | Raise e => Raise e
      | Ok r1 =>
          match dacl_relations entrytype l2 with
          | Raise e => Raise e
          | Ok r2 => Ok (r1 ++ r2)
          end
      end.
Proof.
  intros et l1 l2. induction l1 as [|a l1 IH]; cbn [app dacl_relations].
  - destruct (dacl_relations et l2); reflexivity.
  - destruct (ace_relations et a) as [here|e]; [|reflexivity].
    rewrite IH.
    destruct (dacl_relations et l1) as [r1|e1]; [|reflexivity].
    destruct (dacl_relations et l2) as [r2|e2]; [|reflexivity].
    rewrite app_assoc. reflexivity.
Qed.

(** X9: ACEs of any type but 0x00 and 0x05 (deny, audit, unknown) are
    transparent: dropping them from the DACL changes neither the
    relations nor the exception. *)
Theorem other_types_transparent :
  forall (entrytype : string) (l : list ACE),
    dacl_relations entrytype (filter looked_at l) = dacl_relations entrytype l.
Proof.
  intros et l. induction l as [|a l IH]; cbn [filter dacl_relations]; [reflexivity|].
  unfold looked_at at 1.
  destruct (AceType (ace a) =? 0) eqn:E0, (AceType (ace a) =? 5) eqn:E5;
    cbn [orb]; cbn [dacl_relations]; rewrite IH; try reflexivity.
  unfold ace_relations. rewrite E0, E5. cbn [negb andb].
  destruct (dacl_relations et l); reflexivity.
Qed.

(** X10: an object ACE flagged INHERIT_ONLY_ACE and not INHERITED_ACE adds
    nothing, whatever its mask, its GUIDs and the entry class. *)
Theorem inherit_only_adds_nothing :
  forall (entrytype : string) (a : ACE) (o : ACCESS_ALLOWED_OBJECT_ACE_struct),
    AceType (ace a) = 5 ->
    acedata a = Some (ObjectAce o) ->
    ACE_has_flag a INHERITED_ACE = false ->
    ACE_has_flag a INHERIT_ONLY_ACE = true ->
    ace_relations entrytype a = Ok [].
Proof.
  intros et a o Hty Hd Hi Hio. unfold ace_relations.
  rewrite Hty, Hd. cbn [negb andb Z.eqb Pos.eqb].
  destruct (str_in _ ignoresids); [reflexivity|].
  unfold object_ace_relations, inherit_only_template. rewrite Hi, Hio. reflexivity.
Qed.

Lemma inherit_only_adds_nothing_witness :
  ACE_has_flag
    (Fixture.object_ace 0x08
       (Fixture.object_data 0x000F01FF 0 [] [] Fixture.helpdesk_sid))
    INHERITED_ACE = false
  /\ ACE_has_flag
       (Fixture.object_ace 0x08
          (Fixture.object_data 0x000F01FF 0 [] [] Fixture.helpdesk_sid))
       INHERIT_ONLY_ACE = true
  /\ ace_relations "user"
       (Fixture.object_ace 0x08
          (Fixture.object_data 0x000F01FF 0 [] [] Fixture.helpdesk_sid))
     = Ok [].
Proof.
  split; [reflexivity | split; [reflexivity|]].
  exact (inherit_only_adds_nothing "user"
           (Fixture.object_ace 0x08
              (Fixture.object_data 0x000F01FF 0 [] [] Fixture.helpdesk_sid))
           (Fixture.object_data 0x000F01FF 0 [] [] Fixture.helpdesk_sid)
           eq_refl eq_refl eq_refl eq_refl).
Defined.

(** X11: the flags of a plain ACE (type 0x00) play no part: with any other
    flags, INHERIT_ONLY_ACE included, it adds the same relations. *)
Theorem plain_ace_flags_irrelevant :
  forall (entrytype : string) (a : ACE) (flags : Z),
    AceType (ace a) = 0 ->
    ace_relations entrytype (with_flags flags a) = ace_relations entrytype a.
Proof.
  intros et a flags Hty. unfold ace_relations, with_flags.
  cbn [ace acedata AceType]. rewrite Hty. reflexivity.
Qed.

Lemma plain_ace_flags_irrelevant_witness :
  AceType (ace (Fixture.plain_ace 0x000F01FF Fixture.helpdesk_sid)) = 0
  /\ ace_relations "user"
       (with_flags INHERIT_ONLY_ACE (Fixture.plain_ace 0x000F01FF Fixture.helpdesk_sid))
     = Ok [build_relation "S-1-5-21-1-2-3-1104" "GenericAll" EmptyString].
Proof.
  split; [reflexivity|].
  exact (eq_trans
           (plain_ace_flags_irrelevant "user"
              (Fixture.plain_ace 0x000F01FF Fixture.helpdesk_sid)
              INHERIT_ONLY_ACE eq_refl)
           eq_refl).
Defined.

(** ** What can be emitted *)

Lemma emit_Forall (P : Relation -> Prop) c r : P r -> Forall P (emit c r).
Proof. intros H. destruct c; simpl; constructor; [exact H | constructor]. Qed.

(** Split a goal [Forall P l] along the way [l] was put together. *)
Ltac each_relation :=
  repeat first
    [ apply Forall_nil
    | apply Forall_cons
    | apply emit_Forall
    | apply Forall_app; split ].

Ltac in_kinds := cbn; repeat first [ left; reflexivity | right ].

Lemma object_ace_relations_kinds et a o s :
  Forall (fun r => In (kind r) ace_kinds) (object_ace_relations et a o s).
Proof.
  unfold object_ace_relations, generic_rights, property_write, extended_rights.
  destruct (inherit_only_template a); [constructor|].
  destruct (inherited_type_mismatch et a o); [constructor|].
  destruct (generic_access (Mask o));
    [destruct (object_type_mismatch et o); [constructor|];
     destruct (has_priv (Mask o) GENERIC_ALL); [each_relation; in_kinds|];
     destruct (has_priv (Mask o) GENERIC_WRITE && negb (et =? "domain")%string);
       [each_relation; in_kinds|] |];
    destruct (has_priv (Mask o) ADS_RIGHT_DS_WRITE_PROP);
    destruct (has_priv (Mask o) ADS_RIGHT_DS_CONTROL_ACCESS);
    each_relation; in_kinds.
Qed.

Lemma plain_ace_relations_kinds et mask s :
  Forall (fun r => In (kind r) ace_kinds) (plain_ace_relations et mask s).
Proof.
  unfold plain_ace_relations.
  destruct (has_priv mask GENERIC_ALL); each_relation; in_kinds.
Qed.

Lemma ace_relations_kinds et a rels :
  ace_relations et a = Ok rels -> Forall (fun r => In (kind r) ace_kinds) rels.
Proof.
  unfold ace_relations.
  destruct (negb (AceType (ace a) =? 5) && negb (AceType (ace a) =? 0)).
  { intros H. injection H as <-. constructor. }
  destruct (acedata a) as [d|]; [|discriminate].
  destruct (str_in (LdapSid_str (acedata_sid d)) ignoresids).
  { intros H. injection H as <-. constructor. }
  destruct (AceType (ace a) =? 5).
  - destruct d as [pl|ob]; [discriminate|].
    intros H. injection H as <-. apply object_ace_relations_kinds.
  - intros H. injection H as <-. apply plain_ace_relations_kinds.
Qed.

Lemma dacl_relations_Forall (P : Relation -> Prop) et :
  (forall a rels, ace_relations et a = Ok rels -> Forall P rels) ->
  forall l rels, dacl_relations et l = Ok rels -> Forall P rels.
Proof.
  intros Hace l. induction l as [|a rest IH]; simpl; intros rels H.
  - injection H as <-. constructor.
  - destruct (ace_relations et a) as [here|] eqn:Ea; [|discriminate].
    destruct (dacl_relations et rest) as [later|]; [|discriminate].
    injection H as <-.
    apply Forall_app; split; [eapply Hace; exact Ea | apply IH; reflexivity].
Qed.

Lemma parse_binary_acl_Ok {Entry} (entry entry' : Entry) et acl rels :
  parse_binary_acl entry et acl = Ok (entry', rels) ->
  entry' = entry
  /\ (rels = []
      \/ exists sd d later,
           dacl sd = Some d
           /\ dacl_relations et (aces d) = Ok later
           /\ rels = owner_relation sd ++ later).
Proof.
  unfold parse_binary_acl. intros H.
  destruct acl as [[|b data]|].
  - injection H as <- <-. split; [reflexivity | left; reflexivity].
  - destruct (run SecurityDescriptor_init (b :: data)) as [sd|]; [|discriminate].
    unfold evaluate in H.
    destruct (dacl sd) as [d|] eqn:Ed; [|discriminate].
    destruct (dacl_relations et (aces d)) as [later|] eqn:El; [|discriminate].
    injection H as <- <-. split; [reflexivity|].
    right. exists sd, d, later. repeat split; assumption.
  - injection H as <- <-. split; [reflexivity | left; reflexivity].
Qed.

(** X12: every relation that comes back is an Owner relation without
    qualifier or one of nine ACE relations: GenericAll, GenericWrite,
    WriteDacl, WriteOwner (no qualifier), WriteProperty/AddMember, and
    ExtendedRight with All, GetChanges, GetChangesAll or
    User-Force-Change-Password. *)
Theorem relation_vocabulary :
  forall (Entry : Type) (entry entry' : Entry) (entrytype : string)
         (acl : option bytes) (relations : list Relation),
    parse_binary_acl entry entrytype acl = Ok (entry', relations) ->
    Forall (fun r => kind r = ("Owner", EmptyString) \/ In (kind r) ace_kinds)
           relations.
Proof.
  intros Entry entry entry' et acl rels H.
  apply parse_binary_acl_Ok in H.
  destruct H as [_ [->|(sd & d & later & _ & Hl & ->)]]; [constructor|].
  apply Forall_app; split.
  - unfold owner_relation. destruct (str_in _ ignoresids); each_relation.
    left. reflexivity.
  - eapply Forall_impl; [|eapply dacl_relations_Forall;
                           [apply ace_relations_kinds | exact Hl]].
    intros r Hr. right. exact Hr.
Qed.

Lemma relation_vocabulary_witness :
  parse_binary_acl tt "user" (Some Fixture.ignored_subjects)
    = Ok (tt, [build_relation "S-1-5-21-1-2-3-1104" "WriteDacl" EmptyString])
  /\ Forall (fun r => kind r = ("Owner", EmptyString) \/ In (kind r) ace_kinds)
       [build_relation "S-1-5-21-1-2-3-1104" "WriteDacl" EmptyString].
Proof.
  assert (H : parse_binary_acl tt "user" (Some Fixture.ignored_subjects)
              = Ok (tt, [build_relation "S-1-5-21-1-2-3-1104" "WriteDacl" EmptyString]))
    by (vm_compute; reflexivity).
  split; [exact H|].
  exact (relation_vocabulary unit tt tt "user" (Some Fixture.ignored_subjects) _ H).
Defined.

Lemma ace_kinds_not_owner r : In (kind r) ace_kinds -> rightname r <> "Owner".
Proof.
  unfold kind. cbn. intros H E. rewrite E in H.
  repeat (destruct H as [H|H]; [discriminate H|]). exact H.
Qed.

(** X13: the entry comes back as it was given, and only the first relation
    of the list can be an Owner relation: the owner is looked at once,
    before the DACL, and no ACE adds an Owner relation. *)
Theorem owner_comes_first :
  forall (Entry : Type) (entry entry' : Entry) (entrytype : string)
         (acl : option bytes) (relations : list Relation),
    parse_binary_acl entry entrytype acl = Ok (entry', relations) ->
    entry' = entry
    /\ Forall (fun r => rightname r <> "Owner") (tl relations).
Proof.
  intros Entry entry entry' et acl rels H.
  apply parse_binary_acl_Ok in H.
  destruct H as [He [->|(sd & d & later & _ & Hl & ->)]];
    (split; [exact He|]); [constructor|].
  assert (Hlater : Forall (fun r => rightname r <> "Owner") later).
  { eapply Forall_impl; [|eapply dacl_relations_Forall;
                           [apply ace_relations_kinds | exact Hl]].
    intros r Hr. apply ace_kinds_not_owner. exact Hr. }
  unfold owner_relation. destruct (str_in _ ignoresids); cbn [app tl].
  - destruct later as [|r rest]; [constructor|].
    cbn [tl]. inversion Hlater; assumption.
  - exact Hlater.
Qed.

Lemma owner_comes_first_witness :
  parse_binary_acl tt "group"
    (Some (Fixture.descriptor_bytes (Some Fixture.admin)
       (Some (Fixture.acl_bytes 1
          (Fixture.ace_bytes 0 0 (Fixture.plain_body 0x00040000 Fixture.helpdesk))))))
  = Ok (tt, [build_relation "S-1-5-21-1-2-3-500" "Owner" EmptyString;
             build_relation "S-1-5-21-1-2-3-1104" "WriteDacl" EmptyString])
  /\ Forall (fun r => rightname r <> "Owner")
       [build_relation "S-1-5-21-1-2-3-1104" "WriteDacl" EmptyString].
Proof.
  assert (H : parse_binary_acl tt "group"
    (Some (Fixture.descriptor_bytes (Some Fixture.admin)
       (Some (Fixture.acl_bytes 1
          (Fixture.ace_bytes 0 0 (Fixture.plain_body 0x00040000 Fixture.helpdesk))))))
  = Ok (tt, [build_relation "S-1-5-21-1-2-3-500" "Owner" EmptyString;
             build_relation "S-1-5-21-1-2-3-1104" "WriteDacl" EmptyString]))
    by (vm_compute; reflexivity).
  split; [exact H|].
  exact (proj2 (owner_comes_first unit tt tt "group" _ _ H)).
Defined.

(** ** Entry classes without rules of their own *)

Lemma eqb_neq_false (a b : string) : a <> b -> String.eqb a b = false.
Proof. intros H. apply String.eqb_neq. exact H. Qed.

Ltac in_generic := cbn; repeat first [ left; reflexivity | right ].

(** X14: on an entry that is neither a user, a group nor a domain (an
    organizational unit, a group policy container, a class the table does
    not know) an ACE adds nothing but GenericAll, GenericWrite, WriteDacl and
    WriteOwner: the property-write and extended-right rules never match. *)
Theorem other_classes_generic_only :
  forall (entrytype : string) (a : ACE) (rels : list Relation),
    entrytype <> "user" -> entrytype <> "group" -> entrytype <> "domain" ->
    ace_relations entrytype a = Ok rels ->
    Forall (fun r => In (kind r) generic_kinds) rels.
Proof.
  intros et a rels Hu Hg Hd.
  apply eqb_neq_false in Hu, Hg, Hd.
  unfold ace_relations.
  destruct (negb (AceType (ace a) =? 5) && negb (AceType (ace a) =? 0)).
  { intros H. injection H as <-. constructor. }
  destruct (acedata a) as [d|]; [|discriminate].
  destruct (str_in (LdapSid_str (acedata_sid d)) ignoresids).
  { intros H. injection H as <-. constructor. }
  destruct (AceType (ace a) =? 5).
  - destruct d as [pl|ob]; [discriminate|].
    intros H. injection H as <-.
    unfold object_ace_relations, generic_rights, property_write, extended_rights,
      str_in.
    cbn [existsb]. rewrite Hu, Hg, Hd. cbn [orb andb negb emit app].
    destruct (inherit_only_template a); [constructor|].
    destruct (inherited_type_mismatch et a ob); [constructor|].
    destruct (generic_access (Mask ob));
      [destruct (object_type_mismatch et ob); [constructor|];
       destruct (has_priv (Mask ob) GENERIC_ALL); [each_relation; in_generic|];
       destruct (has_priv (Mask ob) GENERIC_WRITE); cbn [andb];
         [each_relation; in_generic|] |];
      destruct (has_priv (Mask ob) ADS_RIGHT_DS_WRITE_PROP);
      destruct (has_priv (Mask ob) ADS_RIGHT_DS_CONTROL_ACCESS);
      cbn [emit app]; each_relation; in_generic.
  - intros H. injection H as <-.
    unfold plain_ace_relations, str_in. cbn [existsb].
    rewrite Hu, Hd. cbn [orb andb].
    destruct (has_priv (acedata_mask d) GENERIC_ALL); each_relation; in_generic.
Qed.

Lemma other_classes_generic_only_witness :
  "organizationalUnit" <> "user" /\ "organizationalUnit" <> "group"
  /\ "organizationalUnit" <> "domain"
  /\ ace_relations "organizationalUnit"
       (Fixture.object_ace 0
          (Fixture.object_data 0x00040120 0 [] [] Fixture.helpdesk_sid))
     = Ok [build_relation "S-1-5-21-1-2-3-1104" "WriteDacl" EmptyString]
  /\ Forall (fun r => In (kind r) generic_kinds)
       [build_relation "S-1-5-21-1-2-3-1104" "WriteDacl" EmptyString].
Proof.
  assert (Hu : "organizationalUnit" <> "user") by discriminate.
  assert (Hg : "organizationalUnit" <> "group") by discriminate.
  assert (Hd : "organizationalUnit" <> "domain") by discriminate.
  assert (H : ace_relations "organizationalUnit"
       (Fixture.object_ace 0
          (Fixture.object_data 0x00040120 0 [] [] Fixture.helpdesk_sid))
     = Ok [build_relation "S-1-5-21-1-2-3-1104" "WriteDacl" EmptyString])
    by (vm_compute; reflexivity).
  split; [exact Hu | split; [exact Hg | split; [exact Hd | split; [exact H|]]]].
  exact (other_classes_generic_only "organizationalUnit" _ _ Hu Hg Hd H).
Defined.

(** ** ACEs restricted to an object type *)

(** X15: an object ACE that carries an ObjectType never adds
    ExtendedRight/All, and adds GenericWrite only when its mask holds all of
    GENERIC_WRITE: the unrestricted readings of ADS_RIGHT_DS_CONTROL_ACCESS and
    ADS_RIGHT_DS_WRITE_PROP are kept for ACEs without an ObjectType. *)
Theorem restricted_ace_no_blanket_right :
  forall (entrytype : string) (a : ACE) (o : ACCESS_ALLOWED_OBJECT_ACE_struct)
         (rels : list Relation),
    AceType (ace a) = 5 ->
    acedata a = Some (ObjectAce o) ->
    has_flag o ACE_OBJECT_TYPE_PRESENT = true ->
    ace_relations entrytype a = Ok rels ->
    Forall (fun r => kind r <> ("ExtendedRight", "All")
                     /\ (has_priv (Mask o) GENERIC_WRITE = false ->
                         rightname r <> "GenericWrite")) rels.
Proof.
  intros et a o rels Hty Hd Hf. unfold ace_relations.
  rewrite Hty, Hd. cbn [negb andb Z.eqb Pos.eqb].
  destruct (str_in _ ignoresids).
  { intros H. injection H as <-. constructor. }
  intros H. injection H as <-.
  unfold object_ace_relations, generic_rights, property_write, extended_rights.
  rewrite Hf. cbn [negb]. rewrite !andb_false_r. cbn [emit app].
  destruct (inherit_only_template a); [constructor|].
  destruct (inherited_type_mismatch et a o); [constructor|].
  destruct (has_priv (Mask o) GENERIC_WRITE) eqn:Egw;
    (destruct (generic_access (Mask o));
     [destruct (object_type_mismatch et o); [constructor|];
      destruct (has_priv (Mask o) GENERIC_ALL);
        [each_relation; split; [discriminate | intros _; discriminate]|];
      cbn [andb];
      try (destruct (negb (et =? "domain")%string);
           [each_relation; split; [discriminate | intros; discriminate]|]) |];
     destruct (has_priv (Mask o) ADS_RIGHT_DS_WRITE_PROP);
     destruct (has_priv (Mask o) ADS_RIGHT_DS_CONTROL_ACCESS);
     cbn [emit app]; each_relation;
     split; first [discriminate | intros; discriminate]).
Qed.

Lemma restricted_ace_no_blanket_right_witness :
  has_flag (Fixture.object_data 0x100 1 (extright "GetChanges") [] Fixture.helpdesk_sid)
    ACE_OBJECT_TYPE_PRESENT = true
  /\ ace_relations "domain"
       (Fixture.object_ace 0
          (Fixture.object_data 0x100 1 (extright "GetChanges") [] Fixture.helpdesk_sid))
     = Ok [build_relation "S-1-5-21-1-2-3-1104" "ExtendedRight" "GetChanges"]
  /\ Forall (fun r => kind r <> ("ExtendedRight", "All")
                      /\ (has_priv 0x100 GENERIC_WRITE = false ->
                          rightname r <> "GenericWrite"))
       [build_relation "S-1-5-21-1-2-3-1104" "ExtendedRight" "GetChanges"].
Proof.
  assert (H : ace_relations "domain"
       (Fixture.object_ace 0
          (Fixture.object_data 0x100 1 (extright "GetChanges") [] Fixture.helpdesk_sid))
     = Ok [build_relation "S-1-5-21-1-2-3-1104" "ExtendedRight" "GetChanges"])
    by (vm_compute; reflexivity).
  split; [reflexivity | split; [exact H|]].
  exact (restricted_ace_no_blanket_right "domain"
           (Fixture.object_ace 0
              (Fixture.object_data 0x100 1 (extright "GetChanges") []
                 Fixture.helpdesk_sid))
           (Fixture.object_data 0x100 1 (extright "GetChanges") [] Fixture.helpdesk_sid)
           _ eq_refl eq_refl eq_refl H).
Defined.

(** ** No relation twice from one ACE *)

Lemma select_app l1 l2 : select (l1 ++ l2) = select l1 ++ select l2.
Proof. unfold select. apply flat_map_app. Qed.

Lemma emit_select c r : emit c r = select [(c, r)].
Proof. unfold select. cbn. rewrite app_nil_r. reflexivity. Qed.

Lemma select_In l x : In x (select l) -> In x (map snd l).
Proof.
  induction l as [|[c r] rest IH]; cbn; [tauto|].
  intros H. apply in_app_or in H. destruct H as [H|H].
  - destruct c; cbn in H; [destruct H as [H|[]]; left; exact H | destruct H].
  - right. apply IH. exact H.
Qed.

Lemma select_NoDup l : NoDup (map snd l) -> NoDup (select l).
Proof.
  induction l as [|[c r] rest IH]; cbn; intros H; [constructor|].
  inversion H as [|x xs Hx Hrest]; subst.
  destruct c; cbn.
  - constructor; [|apply IH; exact Hrest].
    intros Hin. apply Hx. apply select_In. exact Hin.
  - apply IH. exact Hrest.
Qed.

Lemma property_write_select et o s :
  property_write et o s
  = select
      [ (has_priv (Mask o) ADS_RIGHT_DS_WRITE_PROP
         && (str_in et ["user"; "group"] && negb (has_flag o ACE_OBJECT_TYPE_PRESENT)),
         build_relation s "GenericWrite" EmptyString);
        (has_priv (Mask o) ADS_RIGHT_DS_WRITE_PROP
         && (String.eqb et "group" && can_write_property o (extright "WriteMember")),
         build_relation s "WriteProperty" "AddMember") ].
Proof.
  unfold property_write, select. cbn [flat_map fst snd].
  destruct (has_priv (Mask o) ADS_RIGHT_DS_WRITE_PROP); cbn [andb];
    [rewrite app_nil_r|]; reflexivity.
Qed.

Lemma extended_rights_select et o s :
  extended_rights et o s
  = select
      [ (has_priv (Mask o) ADS_RIGHT_DS_CONTROL_ACCESS
         && (str_in et ["user"; "domain"] && negb (has_flag o ACE_OBJECT_TYPE_PRESENT)),
         build_relation s "ExtendedRight" "All");
        (has_priv (Mask o) ADS_RIGHT_DS_CONTROL_ACCESS
         && (String.eqb et "domain" && has_extended_right o (extright "GetChanges")),
         build_relation s "ExtendedRight" "GetChanges");
        (has_priv (Mask o) ADS_RIGHT_DS_CONTROL_ACCESS
         && (String.eqb et "domain" && has_extended_right o (extright "GetChangesAll")),
         build_relation s "ExtendedRight" "GetChangesAll");
        (has_priv (Mask o) ADS_RIGHT_DS_CONTROL_ACCESS
         && (String.eqb et "user"
             && has_extended_right o (extright "UserForceChangePassword")),
         build_relation s "ExtendedRight" "User-Force-Change-Password") ].
Proof.
  unfold extended_rights, select. cbn [flat_map fst snd].
  destruct (has_priv (Mask o) ADS_RIGHT_DS_CONTROL_ACCESS); cbn [andb];
    [rewrite app_nil_r|]; reflexivity.
Qed.

(** Distinct right names or qualifiers make distinct relations. *)
Ltac distinct_relations :=
  cbn [map snd app];
  repeat (constructor; [cbn [In]; unfold build_relation; intuition discriminate|]);
  constructor.

Ltac as_selection :=
  rewrite ?property_write_select, ?extended_rights_select, ?emit_select;
  cbn [app]; rewrite <- ?select_app; apply select_NoDup; distinct_relations.

Lemma object_ace_relations_NoDup et a o s : NoDup (object_ace_relations et a o s).
Proof.
  unfold object_ace_relations, generic_rights.
  destruct (inherit_only_template a); [constructor|].
  destruct (inherited_type_mismatch et a o); [constructor|].
  destruct (generic_access (Mask o)); [|as_selection].
  destruct (object_type_mismatch et o); [constructor|].
  destruct (has_priv (Mask o) GENERIC_ALL); [distinct_relations|].
  destruct (has_priv (Mask o) GENERIC_WRITE && negb (et =? "domain")%string) eqn:E;
    [distinct_relations|].
  apply andb_false_iff in E. destruct E as [E|E].
  - rewrite E. cbn [emit app]. as_selection.
  - apply negb_false_iff, String.eqb_eq in E. subst et.
    rewrite property_write_domain. as_selection.
Qed.

Lemma plain_ace_relations_NoDup et mask s : NoDup (plain_ace_relations et mask s).
Proof.
  unfold plain_ace_relations.
  destruct (has_priv mask GENERIC_ALL); [distinct_relations | as_selection].
Qed.

(** X16: no ACE adds the same relation twice: the GenericWrite of the
    generic rights and the GenericWrite of an untyped property write never
    come together, the first being followed by a [continue] on every class
    for which the second exists. *)
Theorem ace_relations_NoDup :
  forall (entrytype : string) (a : ACE) (rels : list Relation),
    ace_relations entrytype a = Ok rels -> NoDup rels.
Proof.
  intros et a rels. unfold ace_relations.
  destruct (negb (AceType (ace a) =? 5) && negb (AceType (ace a) =? 0)).
  { intros H. injection H as <-. constructor. }
  destruct (acedata a) as [d|]; [|discriminate].
  destruct (str_in (LdapSid_str (acedata_sid d)) ignoresids).
  { intros H. injection H as <-. constructor. }
  destruct (AceType (ace a) =? 5).
  - destruct d as [pl|ob]; [discriminate|].
    intros H. injection H as <-. apply object_ace_relations_NoDup.
  - intros H. injection H as <-. apply plain_ace_relations_NoDup.
Qed.

Lemma ace_relations_NoDup_witness :
  ace_relations "user"
    (Fixture.object_ace 0
       (Fixture.object_data 0x00020128 0 [] [] Fixture.helpdesk_sid))
  = Ok [build_relation "S-1-5-21-1-2-3-1104" "GenericWrite" EmptyString]
  /\ NoDup [build_relation "S-1-5-21-1-2-3-1104" "GenericWrite" EmptyString].
Proof.
  assert (H : ace_relations "user"
    (Fixture.object_ace 0
       (Fixture.object_data 0x00020128 0 [] [] Fixture.helpdesk_sid))
  = Ok [build_relation "S-1-5-21-1-2-3-1104" "GenericWrite" EmptyString])
    by (vm_compute; reflexivity).
  split; [exact H|].
  exact (ace_relations_NoDup "user" _ _ H).
Defined.

(** ** What the decoders hand over *)

Lemma Z_of_byte_range b : 0 <= Z_of_byte b < 256.
Proof.
  unfold Z_of_byte. pose proof (Byte.to_N_bounded b) as H. lia.
Qed.

Lemma le_uint_range bs : 0 <= le_uint bs < 256 ^ Z.of_nat (length bs).
Proof.
  induction bs as [|b rest IH]; cbn [le_uint length]; [cbn; lia|].
  rewrite Nat2Z.inj_succ, Z.pow_succ_r by lia.
  pose proof (Z_of_byte_range b). lia.
Qed.

Lemma uint32_array_Ok count buf p l q :
  uint32_array count buf p = Ok (l, q) ->
  length l = count
  /\ q = (p + 4 * count)%nat
  /\ ((p <= length buf)%nat -> (q <= length buf)%nat)
  /\ Forall (fun v => 0 <= v < 2 ^ 32) l
  /\ forall j, (j < count)%nat ->
       nth j l 0 = le_uint (slice (p + 4 * j) (p + 4 * j + 4) buf).
Proof.
  revert p l q. induction count as [|n IH]; intros p l q H; cbn [uint32_array] in H.
  - apply ret_Ok in H. destruct H as [-> ->].
    repeat split; [lia | lia | constructor | intros j Hj; lia].
  - fields H. apply ret_Ok in H. destruct H as [-> ->].
    destruct Hm as (-> & Hl & ->).
    apply IH in Hm0. destruct Hm0 as (Hlen & -> & Hb & Hall & Hnth).
    split; [cbn; lia | split; [lia | split; [intros _; replace (p + 4 * S n)%nat with (p + 4 + 4 * n)%nat by lia; apply Hb; exact Hl | split]]].
    + constructor; [|exact Hall].
      pose proof (le_uint_range (firstn 4 (skipn p buf))) as R.
      rewrite length_firstn, length_skipn in R.
      replace (Nat.min 4 (length buf - p)) with 4%nat in R by lia.
      exact R.
    + intros [|j] Hj; cbn [nth].
      * unfold slice. replace (p + 4 * 0)%nat with p by lia.
        replace (p + 4 - p)%nat with 4%nat by lia. reflexivity.
      * rewrite Hnth by lia. f_equal. unfold slice. f_equal; [lia | f_equal; lia].
Qed.

(** X17: a decoded SID has a 6-byte authority and as many sub-authorities
    as its count byte says, each a 32-bit value read little-endian from its
    own four bytes; the decoder consumes 8 bytes plus 4 for every
    sub-authority. *)
Theorem LDAP_SID_layout :
  forall (buf : bytes) (p : nat) (s : LDAP_SID) (q : nat),
    read_LDAP_SID buf p = Ok (s, q) ->
    Revision s = le_uint (slice p (p + 1) buf)
    /\ SubAuthorityCount s = le_uint (slice (p + 1) (p + 2) buf)
    /\ 0 <= SubAuthorityCount s <= 255
    /\ IdentifierAuthority s = slice (p + 2) (p + 8) buf
    /\ length (IdentifierAuthority s) = 6%nat
    /\ Z.of_nat (length (SubAuthority s)) = SubAuthorityCount s
    /\ Forall (fun v => 0 <= v < 2 ^ 32) (SubAuthority s)
    /\ (forall j, (j < length (SubAuthority s))%nat ->
          nth j (SubAuthority s) 0
          = le_uint (slice (p + 8 + 4 * j) (p + 8 + 4 * j + 4) buf))
    /\ q = (p + 8 + 4 * length (SubAuthority s))%nat
    /\ (q <= length buf)%nat.
Proof.
  intros buf p s q H. unfold read_LDAP_SID in H. fields H.
  apply ret_Ok in H. destruct H as [-> ->].
  cbn [Revision SubAuthorityCount IdentifierAuthority SubAuthority].
  destruct Hm as (-> & _ & Hv).
  destruct Hm0 as (-> & Hl0 & Hv0).
  destruct Hm1 as (_ & Hl1 & -> & ->).
  apply uint32_array_Ok in Hm2. destruct Hm2 as (Hlen & -> & Hb & Hall & Hnth).
  assert (R : 0 <= v0 <= 255).
  { pose proof (le_uint_range (firstn 1 (skipn (p + 1) buf))) as R.
    rewrite length_firstn, length_skipn in R.
    replace (Nat.min 1 (length buf - (p + 1))) with 1%nat in R by lia.
    rewrite <- Hv0 in R. change (256 ^ Z.of_nat 1) with 256 in R. lia. }
  cbn [Z.to_nat Pos.to_nat Pos.iter_op Nat.add] in *.
  unfold slice in *.
  replace (p + 1 - p)%nat with 1%nat by lia.
  replace (p + 2 - (p + 1))%nat with 1%nat by lia.
  replace (p + 8 - (p + 2))%nat with 6%nat by lia.
  replace (p + 1 + 1)%nat with (p + 2)%nat in * by lia.
  rewrite Hlen.
  split; [exact Hv | split; [exact Hv0 | split; [exact R | split; [reflexivity|]]]].
  split; [rewrite length_firstn, length_skipn; lia|].
  split; [lia | split; [exact Hall | split]].
  - intros j Hj. rewrite Hnth by exact Hj. f_equal. f_equal; [lia | f_equal; lia].
  - split; [lia | apply Hb; exact Hl1].
Qed.

Lemma LDAP_SID_layout_witness :
  read_LDAP_SID Fixture.admin 0%nat = Ok (Fixture.admin_sid, 28%nat)
  /\ length (IdentifierAuthority Fixture.admin_sid) = 6%nat
  /\ Z.of_nat (length (SubAuthority Fixture.admin_sid))
     = SubAuthorityCount Fixture.admin_sid.
Proof.
  assert (H : read_LDAP_SID Fixture.admin 0%nat = Ok (Fixture.admin_sid, 28%nat))
    by (vm_compute; reflexivity).
  split; [exact H|].
  pose proof (LDAP_SID_layout _ _ _ _ H) as L.
  destruct L as (_ & _ & _ & _ & L1 & L2 & _).
  split; [exact L1 | exact L2].
Defined.




(** X19: ACEs of a type the decoder does not know (anything but 0x00, 0x01,
    0x05, 0x06) are kept without a body and raise nothing: once the generic
    header and its data are read, the ACE is there with [acedata] set to
    [None], and the cursor stands behind it. *)
Theorem unsupported_type_kept :
  forall (tail : bytes) (p : nat) (s : ACE_struct) (q : nat),
    read_ACE tail p = Ok (s, q) ->
    AceType s <> 0 -> AceType s <> 1 -> AceType s <> 5 -> AceType s <> 6 ->
    ACE_init tail p = Ok ({| ace := s; acedata := None |}, q).
Proof.
  intros tail p s q H H0 H1 H5 H6.
  unfold ACE_init, bind at 1. rewrite H. cbv zeta.
  apply Z.eqb_neq in H0, H1, H5, H6. rewrite H0, H1, H5, H6. reflexivity.
Qed.

Lemma unsupported_type_kept_witness :
  read_ACE (Fixture.ace_bytes 2 0x40 (Fixture.plain_body 0x10 Fixture.helpdesk)) 0%nat
  = Ok ({| AceType := 2; AceFlags := 0x40; AceSize := 36;
           ace_Data := Fixture.plain_body 0x10 Fixture.helpdesk |}, 36%nat)
  /\ ACE_init (Fixture.ace_bytes 2 0x40 (Fixture.plain_body 0x10 Fixture.helpdesk)) 0%nat
     = Ok ({| ace := {| AceType := 2; AceFlags := 0x40; AceSize := 36;
                        ace_Data := Fixture.plain_body 0x10 Fixture.helpdesk |};
              acedata := None |}, 36%nat).
Proof.
  assert (H : read_ACE (Fixture.ace_bytes 2 0x40
                          (Fixture.plain_body 0x10 Fixture.helpdesk)) 0%nat
  = Ok ({| AceType := 2; AceFlags := 0x40; AceSize := 36;
           ace_Data := Fixture.plain_body 0x10 Fixture.helpdesk |}, 36%nat))
    by (vm_compute; reflexivity).
  split; [exact H|].
  apply (unsupported_type_kept _ _ _ _ H); cbn [AceType]; discriminate.
Defined.

(** X20: in a decoded ACL every ACE has the body of its type: a plain one
    for types 0x00 and 0x01, an object one for 0x05 and 0x06, none for any
    other type. *)
Theorem decoded_aces_typed :
  forall (buf : bytes) (p : nat) (a : ACL) (q : nat),
    ACL_init buf p = Ok (a, q) ->
    Forall (fun x => body_matches_type x = true) (aces a).
Proof.
  intros buf p a q H. unfold ACL_init in H. fields H.
  apply ret_Ok in H. destruct H as [-> _]. cbn [aces].
  unfold from_buffer, run in Hm0.
  destruct (read_aces _ _ 0%nat) as [[l' q']|] eqn:E; [|discriminate].
  injection Hm0 as <- _.
  eapply read_aces_body_matches_type. exact E.
Qed.

Lemma decoded_aces_typed_witness :
  ACL_init (Fixture.acl_bytes 1
              (Fixture.ace_bytes 6 0 (Fixture.object_body 0x100 0 [] Fixture.helpdesk)))
           0%nat
  = Ok ({| acl := {| AclRevision := 2; acl_Sbz1 := 0; AclSize := 48;
                     AceCount := 1; Sbz2 := 0;
                     acl_Data := Fixture.ace_bytes 6 0
                                   (Fixture.object_body 0x100 0 [] Fixture.helpdesk) |};
           aces := [ {| ace := {| AceType := 6; AceFlags := 0; AceSize := 40;
                                  ace_Data := Fixture.object_body 0x100 0 []
                                                Fixture.helpdesk |};
                        acedata := Some (ObjectAce
                          (Fixture.object_data 0x100 0 [] [] Fixture.helpdesk_sid)) |} ] |},
        48%nat)
  /\ Forall (fun x => body_matches_type x = true)
       [ {| ace := {| AceType := 6; AceFlags := 0; AceSize := 40;
                      ace_Data := Fixture.object_body 0x100 0 [] Fixture.helpdesk |};
            acedata := Some (ObjectAce
              (Fixture.object_data 0x100 0 [] [] Fixture.helpdesk_sid)) |} ].
Proof.
  assert (H : ACL_init (Fixture.acl_bytes 1
              (Fixture.ace_bytes 6 0 (Fixture.object_body 0x100 0 [] Fixture.helpdesk)))
           0%nat
  = Ok ({| acl := {| AclRevision := 2; acl_Sbz1 := 0; AclSize := 48;
                     AceCount := 1; Sbz2 := 0;
                     acl_Data := Fixture.ace_bytes 6 0
                                   (Fixture.object_body 0x100 0 [] Fixture.helpdesk) |};
           aces := [ {| ace := {| AceType := 6; AceFlags := 0; AceSize := 40;
                                  ace_Data := Fixture.object_body 0x100 0 []
                                                Fixture.helpdesk |};
                        acedata := Some (ObjectAce
                          (Fixture.object_data 0x100 0 [] [] Fixture.helpdesk_sid)) |} ] |},
        48%nat)) by (vm_compute; reflexivity).
  split; [exact H|].
  exact (decoded_aces_typed _ _ _ _ H).
Defined.

(** ** The members of a descriptor *)

Lemma SecurityDescriptor_init_members data sd q :
  SecurityDescriptor_init data 0%nat = Ok (sd, q) ->
  exists p0 p1 p2 p3,
    read_SECURITY_DESCRIPTOR data 0%nat = Ok (descriptor sd, p0)
    /\ at_offset (OffsetOwner (descriptor sd)) read_LDAP_SID data p0
       = Ok (owner_sid sd, p1)
    /\ at_offset (OffsetGroup (descriptor sd)) read_LDAP_SID data p1
       = Ok (group_sid sd, p2)
    /\ at_offset (OffsetSacl (descriptor sd)) ACL_init data p2 = Ok (sacl sd, p3)
    /\ at_offset (OffsetDacl (descriptor sd)) ACL_init data p3 = Ok (dacl sd, q).
Proof.
  intros H. unfold SecurityDescriptor_init in H. fields H.
  apply ret_Ok in H. destruct H as [-> ->]. simpl.
  exists q0, q1, q2, q3. repeat split; assumption.
Qed.

Lemma at_offset_member {A} off (m : reader A) buf p r q :
  at_offset off m buf p = Ok (r, q) ->
  (r = None <-> off = 0)
  /\ (forall a, r = Some a -> exists q', m buf (Z.to_nat off) = Ok (a, q')).
Proof.
  intros H. destruct (Z.eq_dec off 0) as [->|Hne].
  - apply at_offset_zero in H. subst r.
    split; [tauto | intros a E; discriminate].
  - apply at_offset_nonzero in H; [|exact Hne].
    destruct H as (a & -> & Ha). split.
    + split; [discriminate | contradiction].
    + intros a' E. injection E as <-. exists q. exact Ha.
Qed.

(** X21: in a decoded descriptor the owner, the group, the SACL and the DACL
    are absent exactly when their offset in the header is 0, and a member
    that is present was decoded at that offset counted from the start of the
    buffer, wherever the members before it ended. *)
Theorem descriptor_members :
  forall (data : bytes) (sd : SecurityDescriptor),
    run SecurityDescriptor_init data = Ok sd ->
    let d := descriptor sd in
    (owner_sid sd = None <-> OffsetOwner d = 0)
    /\ (group_sid sd = None <-> OffsetGroup d = 0)
    /\ (sacl sd = None <-> OffsetSacl d = 0)
    /\ (dacl sd = None <-> OffsetDacl d = 0)
    /\ (forall s, owner_sid sd = Some s ->
          exists q, read_LDAP_SID data (Z.to_nat (OffsetOwner d)) = Ok (s, q))
    /\ (forall s, group_sid sd = Some s ->
          exists q, read_LDAP_SID data (Z.to_nat (OffsetGroup d)) = Ok (s, q))
    /\ (forall a, sacl sd = Some a ->
          exists q, ACL_init data (Z.to_nat (OffsetSacl d)) = Ok (a, q))
    /\ (forall a, dacl sd = Some a ->
          exists q, ACL_init data (Z.to_nat (OffsetDacl d)) = Ok (a, q)).
Proof.
  intros data sd H d. unfold run in H.
  destruct (SecurityDescriptor_init data 0%nat) as [[sd' q]|] eqn:E; [|discriminate].
  injection H as ->.
  apply SecurityDescriptor_init_members in E.
  destruct E as (p0 & p1 & p2 & p3 & _ & Ho & Hg & Hs & Hd).
  apply at_offset_member in Ho, Hg, Hs, Hd. subst d.
  repeat split; try apply Ho; try apply Hg; try apply Hs; try apply Hd.
Qed.

Lemma descriptor_members_witness :
  exists sd,
    run SecurityDescriptor_init Fixture.no_dacl = Ok sd
    /\ (owner_sid sd = None <-> OffsetOwner (descriptor sd) = 0)
    /\ (dacl sd = None <-> OffsetDacl (descriptor sd) = 0)
    /\ (forall s, owner_sid sd = Some s ->
          exists q, read_LDAP_SID Fixture.no_dacl
                      (Z.to_nat (OffsetOwner (descriptor sd))) = Ok (s, q)).
Proof.
  pose (r := run SecurityDescriptor_init Fixture.no_dacl).
  assert (H : run SecurityDescriptor_init Fixture.no_dacl = r) by reflexivity.
  vm_compute in r. subst r.
  match type of H with
  | _ = Ok ?sd =>
      exists sd; split; [exact H|];
      pose proof (descriptor_members Fixture.no_dacl sd H) as L; cbv zeta in L;
      destruct L as (L1 & _ & _ & L4 & L5 & _);
      split; [exact L1 | split; [exact L4 | exact L5]]
  end.
Defined.

(** ** Evaluation after decoding *)

Lemma ace_relations_typed et a :
  body_matches_type a = true -> exists rels, ace_relations et a = Ok rels.
Proof.
  unfold body_matches_type, ace_relations. intros H.
  destruct (Z.eqb_spec (AceType (ace a)) 5) as [E5|E5],
           (Z.eqb_spec (AceType (ace a)) 0) as [E0|E0];
    cbn [negb andb]; try (eexists; reflexivity);
    destruct (acedata a) as [[pl|ob]|];
    try (destruct (str_in _ ignoresids); eexists; reflexivity);
    exfalso;
    repeat match type of H with
           | context [AceType (ace a) =? ?k] =>
               destruct (Z.eqb_spec (AceType (ace a)) k)
           end;
    cbn in H; try discriminate; lia.
Qed.

Lemma dacl_relations_typed et l :
  Forall (fun a => body_matches_type a = true) l ->
  exists rels, dacl_relations et l = Ok rels.
Proof.
  induction 1 as [|a rest Ha _ IH]; cbn [dacl_relations].
  - eexists; reflexivity.
  - destruct (ace_relations_typed et a Ha) as [here ->].
    destruct IH as [later ->]. eexists; reflexivity.
Qed.

(** X22: once a descriptor with a DACL (offset not 0) has been decoded, the
    evaluation cannot raise: the call returns the entry with a relation list,
    for every entry class. *)
Theorem decoded_dacl_evaluates :
  forall (Entry : Type) (entry : Entry) (entrytype : string)
         (data : bytes) (sd : SecurityDescriptor),
    run SecurityDescriptor_init data = Ok sd ->
    OffsetDacl (descriptor sd) <> 0 ->
    exists relations,
      parse_binary_acl entry entrytype (Some data) = Ok (entry, relations).
Proof.
  intros Entry entry et data sd H Hoff.
  assert (Hne : data <> []).
  { intros ->. vm_compute in H. discriminate. }
  rewrite parse_binary_acl_nonempty by exact Hne. rewrite H.
  unfold run in H.
  destruct (SecurityDescriptor_init data 0%nat) as [[sd' q]|] eqn:E; [|discriminate].
  injection H as ->.
  apply SecurityDescriptor_init_members in E.
  destruct E as (p0 & p1 & p2 & p3 & _ & _ & _ & _ & Hd).
  apply at_offset_nonzero in Hd; [|exact Hoff].
  destruct Hd as (a & Ha & Hacl).
  unfold evaluate. rewrite Ha.
  unfold ACL_init in Hacl. fields Hacl.
  apply ret_Ok in Hacl. destruct Hacl as [-> _]. cbn [aces].
  unfold from_buffer, run in Hm0.
  destruct (read_aces _ _ 0%nat) as [[l' q']|] eqn:El; [|discriminate].
  injection Hm0 as <- _.
  apply read_aces_body_matches_type in El.
  destruct (dacl_relations_typed et _ El) as [rels ->].
  eexists; reflexivity.
Qed.

Lemma decoded_dacl_evaluates_witness :
  exists sd,
    run SecurityDescriptor_init Fixture.ignored_subjects = Ok sd
    /\ OffsetDacl (descriptor sd) <> 0
    /\ exists relations,
         parse_binary_acl tt "domain" (Some Fixture.ignored_subjects)
         = Ok (tt, relations).
Proof.
  pose (r := run SecurityDescriptor_init Fixture.ignored_subjects).
  assert (H : run SecurityDescriptor_init Fixture.ignored_subjects = r) by reflexivity.
  vm_compute in r. subst r.
  match type of H with
  | _ = Ok ?sd =>
      assert (Hoff : OffsetDacl (descriptor sd) <> 0) by (cbn; discriminate);
      exists sd; split; [exact H | split; [exact Hoff |
        exact (decoded_dacl_evaluates unit tt "domain"
                 Fixture.ignored_subjects sd H Hoff)]]
  end.
Defined.

(** ** The order of the ACEs *)

(** X23: the order in which the DACL stores its ACEs decides the order of
    the relations and nothing else: a DACL with the same ACEs in another
    order evaluates too, to the same relations in another order.  No ACE
    takes away what another one adds. *)
Theorem dacl_order_irrelevant :
  forall (entrytype : string) (l l' : list ACE) (rels : list Relation),
    Permutation l l' ->
    dacl_relations entrytype l = Ok rels ->
    exists rels',
      dacl_relations entrytype l' = Ok rels' /\ Permutation rels rels'.
Proof.
  intros et l l' rels HP. revert rels.
  induction HP as [|a l l' HP IH|a b l|l l' l'' HP1 IH1 HP2 IH2]; intros rels H.
  - exists rels. split; [exact H | apply Permutation_refl].
  - cbn [dacl_relations] in *.
    destruct (ace_relations et a) as [here|]; [|discriminate].
    destruct (dacl_relations et l) as [later|]; [|discriminate].
    injection H as <-.
    destruct (IH later eq_refl) as (later' & -> & HPl).
    exists (here ++ later'). split; [reflexivity|].
    apply Permutation_app_head. exact HPl.
  - cbn [dacl_relations] in *.
    destruct (ace_relations et b) as [rb|]; [|discriminate].
    destruct (ace_relations et a) as [ra|]; [|discriminate].
    destruct (dacl_relations et l) as [later|]; [|discriminate].
    injection H as <-.
    exists (ra ++ rb ++ later). split; [reflexivity|].
    rewrite !app_assoc. apply Permutation_app_tail. apply Permutation_app_comm.
  - destruct (IH1 rels H) as (r1 & H1 & P1).
    destruct (IH2 r1 H1) as (r2 & H2 & P2).
    exists r2. split; [exact H2 | eapply Permutation_trans; eassumption].
Qed.

Lemma dacl_order_irrelevant_witness :
  Permutation
    [Fixture.plain_ace 0x00040000 Fixture.helpdesk_sid;
     Fixture.plain_ace 0x000F01FF Fixture.admin_sid]
    [Fixture.plain_ace 0x000F01FF Fixture.admin_sid;
     Fixture.plain_ace 0x00040000 Fixture.helpdesk_sid]
  /\ dacl_relations "user"
       [Fixture.plain_ace 0x00040000 Fixture.helpdesk_sid;
        Fixture.plain_ace 0x000F01FF Fixture.admin_sid]
     = Ok [build_relation "S-1-5-21-1-2-3-1104" "WriteDacl" EmptyString;
           build_relation "S-1-5-21-1-2-3-500" "GenericAll" EmptyString]
  /\ exists rels',
       dacl_relations "user"
         [Fixture.plain_ace 0x000F01FF Fixture.admin_sid;
          Fixture.plain_ace 0x00040000 Fixture.helpdesk_sid]
       = Ok rels'
       /\ Permutation
            [build_relation "S-1-5-21-1-2-3-1104" "WriteDacl" EmptyString;
             build_relation "S-1-5-21-1-2-3-500" "GenericAll" EmptyString]
            rels'.
Proof.
  assert (HP : Permutation
    [Fixture.plain_ace 0x00040000 Fixture.helpdesk_sid;
     Fixture.plain_ace 0x000F01FF Fixture.admin_sid]
    [Fixture.plain_ace 0x000F01FF Fixture.admin_sid;
     Fixture.plain_ace 0x00040000 Fixture.helpdesk_sid]) by apply perm_swap.
  assert (H : dacl_relations "user"
       [Fixture.plain_ace 0x00040000 Fixture.helpdesk_sid;
        Fixture.plain_ace 0x000F01FF Fixture.admin_sid]
     = Ok [build_relation "S-1-5-21-1-2-3-1104" "WriteDacl" EmptyString;
           build_relation "S-1-5-21-1-2-3-500" "GenericAll" EmptyString])
    by (vm_compute; reflexivity).
  split; [exact HP | split; [exact H|]].
  exact (dacl_order_irrelevant "user" _ _ _ HP H).
Defined.

(** ** Classes the table does not know *)

Lemma applies_to_unknown guid et :
  ~ In et (map fst OBJECTTYPE_GUID_MAP) -> applies_to guid et = false.
Proof.
  intros H. destruct guid as [g|]; [|reflexivity].
  unfold applies_to, ace_applies.
  apply assoc_None in H. rewrite H. reflexivity.
Qed.

(** X24: on an entry whose class is not a key of the class table (a
    computer, say) an object ACE is dropped as soon as a GUID has to be
    compared with the class: when it is inherited and carries an
    InheritedObjectType, or when it holds a generic right and carries an
    ObjectType. *)
Theorem unknown_class_drops_typed_aces :
  forall (entrytype : string) (a : ACE) (o : ACCESS_ALLOWED_OBJECT_ACE_struct),
    ~ In entrytype (map fst OBJECTTYPE_GUID_MAP) ->
    AceType (ace a) = 5 ->
    acedata a = Some (ObjectAce o) ->
    (ACE_has_flag a INHERITED_ACE = true
     /\ has_flag o ACE_INHERITED_OBJECT_TYPE_PRESENT = true)
    \/ (generic_access (Mask o) = true
        /\ has_flag o ACE_OBJECT_TYPE_PRESENT = true) ->
    ace_relations entrytype a = Ok [].
Proof.
  intros et a o Hk Hty Hd Hcase. unfold ace_relations.
  rewrite Hty, Hd. cbn [negb andb Z.eqb Pos.eqb acedata_sid].
  destruct (str_in _ ignoresids); [reflexivity|].
  destruct Hcase as [[Hi Hf]|[Hg Hf]].
  - unfold object_ace_relations, inherited_type_mismatch.
    rewrite Hi, Hf, (applies_to_unknown _ _ Hk). cbn [negb andb].
    destruct (inherit_only_template a); reflexivity.
  - rewrite object_ace_relations_mismatch; [reflexivity | exact Hg|].
    unfold object_type_mismatch. rewrite Hf, (applies_to_unknown _ _ Hk). reflexivity.
Qed.

Lemma unknown_class_drops_typed_aces_witness :
  ~ In "computer" (map fst OBJECTTYPE_GUID_MAP)
  /\ ace_relations "computer"
       (Fixture.object_ace 0
          (Fixture.object_data 0x000F01FF 1 (extright "WriteMember") []
             Fixture.helpdesk_sid))
     = Ok [].
Proof.
  assert (Hk : ~ In "computer" (map fst OBJECTTYPE_GUID_MAP)).
  { cbn. intuition discriminate. }
  split; [exact Hk|].
  exact (unknown_class_drops_typed_aces "computer"
           (Fixture.object_ace 0
              (Fixture.object_data 0x000F01FF 1 (extright "WriteMember") []
                 Fixture.helpdesk_sid))
           (Fixture.object_data 0x000F01FF 1 (extright "WriteMember") []
              Fixture.helpdesk_sid)
           Hk eq_refl eq_refl (or_intror (conj eq_refl eq_refl))).
Defined.
